(** * Relay: a shallow embedding of [relayer.py]

    The relayer is one FastAPI handler, [recibir_lectura], and one helper,
    [subir_a_pinata].  The handler reads a JSON reading, scales the two
    measurements to tenths, pins the reading on Pinata (best effort) and
    stores it on chain through the contract's [storeReading] entry point.

    The embedding keeps the code's shape:
    - Python values decoded from JSON are the inductive [pyval]; a [float]
      is a binary64 number (Rocq's primitive floats), an [int] is a [Z];
    - exceptions are values of [exn]; a computation is a function from the
      state of the run to an outcome and a new state, and a raised exception
      keeps the effects performed before it;
    - [requests], [w3], [contract] and [account] are collaborators: every
      call on them is recorded in the trace of the run and answered by a
      [World], which may answer differently from one call to the next. *)

From Stdlib Require Import ZArith List String Ascii Bool Lia.
From Stdlib Require Import PrimFloat FloatOps SpecFloat.
From Stdlib Require Import Sorted.
From Stdlib.Strings Require Byte.
Import ListNotations.

Set Warnings "-inexact-float,-register-all".

Local Open Scope string_scope.
Local Open Scope list_scope.
Local Open Scope Z_scope.

(** ** Python values and exceptions *)

(** What [json.loads] produces, and what the handler passes around. A
    [PyDict] keeps its items in insertion order. *)
Inductive pyval : Type :=
| PyNone
| PyBool (b : bool)
| PyInt (z : Z)
| PyFloat (f : float)
| PyStr (s : string)
| PyList (l : list pyval)
| PyDict (items : list (string * pyval)).

(** The exception classes the handler can meet. [KeyError] carries the
    missing key, as Python's does; the messages of [ValueError] and
    [TypeError] raised by [float()], [int()] and [round()] quote the
    offending value or its type, never the key it was read from, so they
    carry nothing here. [LibraryError] stands for the exception classes of
    [requests] and [web3]; all of them derive from [Exception]. *)
Inductive exn : Type :=
| KeyError (key : string)
| ValueError
| TypeError
| OverflowError
| AttributeError
| HTTPError (status : Z)
| JSONDecodeError
| LibraryError (class_name : string).

Definition result (A : Type) : Type := (exn + A)%type.

Abbreviation ok := (@inr exn _).
Abbreviation err := (@inl exn _).

Definition and_then {A B} (r : result A) (k : A -> result B) : result B :=
  match r with
  | inl e => inl e
  | inr a => k a
  end.

(** ** Built-ins *)

Definition bytes := list Byte.byte.

(** Truth value of an object, as tested by [not x] and [x or y]. *)
Definition truthy (v : pyval) : bool :=
  match v with
  | PyNone => false
  | PyBool b => b
  | PyInt z => negb (z =? 0)
  | PyFloat f => negb (f =? 0)%float
  | PyStr s => negb (String.eqb s "")
  | PyList l => match l with [] => false | _ => true end
  | PyDict d => match d with [] => false | _ => true end
  end.

(** [x or y] *)
Definition py_or (x y : pyval) : pyval := if truthy x then x else y.

Fixpoint lookup (k : string) (items : list (string * pyval)) : option pyval :=
  match items with
  | [] => None
  | (k', v) :: rest => if String.eqb k k' then Some v else lookup k rest
  end.

(** [d.get(k, default)]: only a dict has the method. *)
Definition py_get (d : pyval) (k : string) (default : pyval) : result pyval :=
  match d with
  | PyDict items =>
      match lookup k items with
      | Some v => ok v
      | None => ok default
      end
  | _ => err AttributeError
  end.

(** [d[k]] with a string key. *)
Definition py_getitem (d : pyval) (k : string) : result pyval :=
  match d with
  | PyDict items =>
      match lookup k items with
      | Some v => ok v
      | None => err (KeyError k)
      end
  | _ => err TypeError
  end.

(** *** Floats *)

(** [float(n)] for an int: the nearest binary64 number, ties to even;
    [OverflowError] when that is out of range. *)
Definition float_of_int (z : Z) : result float :=
  match binary_normalize prec emax z 0 false with
  | S754_infinity _ => err OverflowError
  | sf => ok (SF2Prim sf)
  end.

(** The integer nearest to [m * 2^e], ties to the even one. *)
Definition round_half_even (m : positive) (e : Z) : Z :=
  if 0 <=? e then Z.pos m * 2 ^ e
  else
    let d := 2 ^ (- e) in
    let q := Z.pos m / d in
    match 2 * (Z.pos m mod d) ?= d with
    | Lt => q
    | Gt => q + 1
    | Eq => if Z.even q then q else q + 1
    end.

(** [round(x)] for a float, one argument: an int, by round-half-to-even. *)
Definition py_round (x : float) : result Z :=
  match Prim2SF x with
  | S754_nan => err ValueError
  | S754_infinity _ => err OverflowError
  | S754_zero _ => ok 0
  | S754_finite s m e =>
      ok (if s then - round_half_even m e else round_half_even m e)
  end.

(** [int(x)] for a float: truncation towards zero. *)
Definition int_of_float (x : float) : result Z :=
  match Prim2SF x with
  | S754_nan => err ValueError
  | S754_infinity _ => err OverflowError
  | S754_zero _ => ok 0
  | S754_finite s m e =>
      let a := if 0 <=? e then Z.pos m * 2 ^ e else Z.pos m / 2 ^ (- e) in
      ok (if s then - a else a)
  end.

(** Parsing a [str] as a number is left to the interpreter: [None] is
    Python's [ValueError]. *)
Record Builtins : Type := {
  float_of_str : string -> option float;
  int_of_str : string -> option Z
}.

Section BuiltinConversions.

Variable py : Builtins.

(** [float(v)] *)
Definition py_float (v : pyval) : result float :=
  match v with
  | PyFloat f => ok f
  | PyInt z => float_of_int z
  | PyBool b => ok (if b then 1 else 0)%float
  | PyStr s =>
      match float_of_str py s with
      | Some f => ok f
      | None => err ValueError
      end
  | PyNone | PyList _ | PyDict _ => err TypeError
  end.

(** [int(v)] *)
Definition py_int (v : pyval) : result Z :=
  match v with
  | PyInt z => ok z
  | PyBool b => ok (if b then 1 else 0)
  | PyFloat f => int_of_float f
  | PyStr s =>
      match int_of_str py s with
      | Some z => ok z
      | None => err ValueError
      end
  | PyNone | PyList _ | PyDict _ => err TypeError
  end.

(** [int(round(x * 10))], the expression of lines 107 and 108. *)
Definition scale (x : float) : result Z :=
  and_then (py_round (x * 10)%float) (fun n => py_int (PyInt n)).

End BuiltinConversions.

Definition hex_digit (n : N) : ascii :=
  match n with
  | 0%N => "0" | 1%N => "1" | 2%N => "2" | 3%N => "3"
  | 4%N => "4" | 5%N => "5" | 6%N => "6" | 7%N => "7"
  | 8%N => "8" | 9%N => "9" | 10%N => "a" | 11%N => "b"
  | 12%N => "c" | 13%N => "d" | 14%N => "e" | _ => "f"
  end%char.

(** [b.hex()] for bytes and for the [HexBytes] of Web3.py 7: two lowercase
    digits per byte, no prefix. *)
Fixpoint hex (b : bytes) : string :=
  match b with
  | [] => EmptyString
  | x :: rest =>
      let n := Byte.to_N x in
      String (hex_digit (N.div n 16)) (String (hex_digit (N.modulo n 16)) (hex rest))
  end.

(** ** Collaborators *)

(** A response of [requests]: the status line and what [r.json()] finds in
    the body ([None] when the body is not JSON). *)
Record Response : Type := {
  status_code : Z;
  body_json : option pyval
}.

(** [r.raise_for_status()] *)
Definition raise_for_status (r : Response) : result unit :=
  if (400 <=? status_code r) && (status_code r <? 600)
  then err (HTTPError (status_code r))
  else ok tt.

(** [r.json()] *)
Definition response_json (r : Response) : result pyval :=
  match body_json r with
  | Some v => ok v
  | None => err JSONDecodeError
  end.

(** The object [contract.functions.storeReading(...)] evaluates to. *)
Record ContractFunction : Type := {
  fn_name : string;
  fn_args : list pyval
}.

(** The dict given to [build_transaction]. *)
Record TxParams : Type := {
  tx_from : string;
  tx_nonce : Z;
  tx_gas : Z;
  tx_gasPrice : Z;
  tx_chainId : Z
}.

Record TxReceipt : Type := {
  transactionHash : bytes;
  blockNumber : Z;
  status : Z
}.

Inductive printed : Type :=
| PVal (v : pyval)
| PExn (e : exn).

(** What a run does to the outside, in the order it does it. *)
Inductive event : Type :=
| Print (args : list printed)
| RequestsPost (url : string) (json : pyval)
    (headers : list (string * string)) (timeout : Z)
| GetTransactionCount (address : string)
| StoreReading (args : list pyval)
| GasPrice
| BuildTransaction (fn : ContractFunction) (params : TxParams)
| SignTransaction (tx : pyval) (private_key : string)
| SendRawTransaction (raw : bytes)
| WaitForTransactionReceipt (tx_hash : bytes).

(** The answers of the collaborators. [W] is the state of everything
    outside the process (the archive service, the node, the chain); each call
    may change it, and may raise. *)
Record World (W : Type) : Type := {
  requests_post :
    string -> pyval -> list (string * string) -> Z -> W -> result Response * W;
  get_transaction_count : string -> W -> result Z * W;
  storeReading : list pyval -> W -> result unit * W;
  gas_price : W -> result Z * W;
  build_transaction : ContractFunction -> TxParams -> W -> result pyval * W;
  sign_transaction : pyval -> string -> W -> result bytes * W;
  send_raw_transaction : bytes -> W -> result bytes * W;
  wait_for_transaction_receipt : bytes -> W -> result TxReceipt * W
}.

Arguments requests_post {W}.
Arguments get_transaction_count {W}.
Arguments storeReading {W}.
Arguments gas_price {W}.
Arguments build_transaction {W}.
Arguments sign_transaction {W}.
Arguments send_raw_transaction {W}.
Arguments wait_for_transaction_receipt {W}.

(** The module-level names the handler reads. *)
Record Config : Type := {
  CONTRACT_ADDRESS : string;
  PRIVATE_KEY : string;
  CHAIN_ID : Z;
  PINATA_JWT : string;
  account_address : string
}.

(** [os.environ.get(name, default)] *)
Definition environ_get (environ : string -> option string)
    (name default : string) : string :=
  match environ name with
  | Some v => v
  | None => default
  end.

Definition PINATA_URL : string := "https://api.pinata.cloud/pinning/pinJSONToIPFS".

(** ** Computations *)

Record run (W : Type) : Type := {
  world : W;
  trace : list event
}.

Arguments world {W}.
Arguments trace {W}.

Definition M (W A : Type) : Type := run W -> result A * run W.

Definition ret {W A} (a : A) : M W A := fun st => (ok a, st).

Definition raise {W A} (e : exn) : M W A := fun st => (err e, st).

Definition bind {W A B} (m : M W A) (k : A -> M W B) : M W B :=
  fun st =>
    match m st with
    | (inl e, st') => (inl e, st')
    | (inr a, st') => k a st'
    end.

(** [try: m except Exception as e: h e] *)
Definition try_except {W A} (m : M W A) (h : exn -> M W A) : M W A :=
  fun st =>
    match m st with
    | (inl e, st') => h e st'
    | (inr a, st') => (inr a, st')
    end.

Definition lift {W A} (r : result A) : M W A := fun st => (r, st).

(** A call on a collaborator: recorded, then answered by the world. *)
Definition call {W A} (ev : event) (answer : W -> result A * W) : M W A :=
  fun st =>
    let (r, w') := answer (world st) in
    (r, {| world := w'; trace := trace st ++ [ev] |}).

Definition print {W} (args : list printed) : M W unit :=
  fun st => (ok tt, {| world := world st; trace := trace st ++ [Print args] |}).

Declare Scope relay_scope.
Delimit Scope relay_scope with relay.

Notation "x <- m ;; k" := (bind m (fun x => k))
  (at level 61, m at next level, right associativity) : relay_scope.
Notation "m ;; k" := (bind m (fun _ => k))
  (at level 61, right associativity) : relay_scope.

Local Open Scope relay_scope.

(** ** The relayer *)

Section Relayer.

Context {W : Type}.
Variable node : World W.
Variable cfg : Config.
Variable py : Builtins.

(** [GET /] *)
Definition root : pyval :=
  PyDict [("status", PyStr "ok"); ("message", PyStr "Relayer funcionando")].

(** Returns the CID, or [PyNone]. *)
Definition subir_a_pinata (payload : pyval) : M W pyval :=
  if negb (truthy (PyStr (PINATA_JWT cfg))) then
    print [PVal (PyStr "[WARN] PINATA_JWT vacío, no se subirá a IPFS.")] ;;
    ret PyNone
  else
    let headers :=
      [("Authorization", String.append "Bearer " (PINATA_JWT cfg));
       ("Content-Type", "application/json")] in
    try_except
      (r <- call (RequestsPost PINATA_URL payload headers 30)
                 (requests_post node PINATA_URL payload headers 30) ;;
       lift (raise_for_status r) ;;
       res <- lift (response_json r) ;;
       cid <- lift (py_get res "IpfsHash" PyNone) ;;
       print [PVal (PyStr "[INFO] Subido a Pinata, CID:"); PVal cid] ;;
       ret cid)
      (fun e =>
         print [PVal (PyStr "[ERROR] Error subiendo a Pinata:"); PExn e] ;;
         ret PyNone).

(** [POST /api/lecturas]; [data] is the decoded body. *)
Definition recibir_lectura (data : pyval) : M W pyval :=
  print [PVal (PyStr "[DEBUG] Payload recibido:"); PVal data] ;;
  device_id <- lift (py_get data "device_id" (PyStr "unknown-device")) ;;
  temp_c <- lift (and_then (py_getitem data "temperature") (py_float py)) ;;
  hum <- lift (and_then (py_getitem data "humidity") (py_float py)) ;;
  timestamp_ms <- lift (and_then (py_getitem data "timestamp_ms") (py_int py)) ;;
  temp_times10 <- lift (scale py temp_c) ;;
  hum_times10 <- lift (scale py hum) ;;
  let pinata_payload :=
    PyDict [("device_id", device_id);
            ("temperature_c", PyFloat temp_c);
            ("humidity_percent", PyFloat hum);
            ("timestamp_ms", PyInt timestamp_ms)] in
  uploaded <- subir_a_pinata pinata_payload ;;
  let cid := py_or uploaded (PyStr "") in
  nonce <- call (GetTransactionCount (account_address cfg))
                (get_transaction_count node (account_address cfg)) ;;
  let args :=
    [device_id; PyInt temp_times10; PyInt hum_times10; PyInt timestamp_ms; cid] in
  call (StoreReading args) (storeReading node args) ;;
  let fn := {| fn_name := "storeReading"; fn_args := args |} in
  price <- call GasPrice (gas_price node) ;;
  let params :=
    {| tx_from := account_address cfg;
       tx_nonce := nonce;
       tx_gas := 300000;
       tx_gasPrice := price;
       tx_chainId := CHAIN_ID cfg |} in
  tx <- call (BuildTransaction fn params) (build_transaction node fn params) ;;
  raw_transaction <- call (SignTransaction tx (PRIVATE_KEY cfg))
                          (sign_transaction node tx (PRIVATE_KEY cfg)) ;;
  tx_hash <- call (SendRawTransaction raw_transaction)
                  (send_raw_transaction node raw_transaction) ;;
  print [PVal (PyStr "[INFO] Tx enviada:"); PVal (PyStr (hex tx_hash))] ;;
  receipt <- call (WaitForTransactionReceipt tx_hash)
                  (wait_for_transaction_receipt node tx_hash) ;;
  print [PVal (PyStr "[INFO] Tx minada en bloque:"); PVal (PyInt (blockNumber receipt))] ;;
  ret (PyDict [("status", PyStr "ok");
               ("tx_hash", PyStr (hex tx_hash));
               ("block", PyInt (blockNumber receipt));
               ("cid", cid)]).

End Relayer.

(** ** The phases of the handler

    [recibir_lectura] is one function; its three phases are named here so
    that statements can speak of them. [recibir_lectura_phases] proves that
    the handler is their composition. *)

(** The names bound by lines 101 to 108. *)
Record Reading : Type := {
  device_id : pyval;
  temp_c : float;
  hum : float;
  timestamp_ms : Z;
  temp_times10 : Z;
  hum_times10 : Z
}.

(** Lines 101 to 108: reading and scaling the fields. *)
Definition validate (py : Builtins) (data : pyval) : result Reading :=
  and_then (py_get data "device_id" (PyStr "unknown-device")) (fun d =>
  and_then (and_then (py_getitem data "temperature") (py_float py)) (fun t =>
  and_then (and_then (py_getitem data "humidity") (py_float py)) (fun h =>
  and_then (and_then (py_getitem data "timestamp_ms") (py_int py)) (fun ts =>
  and_then (scale py t) (fun t10 =>
  and_then (scale py h) (fun h10 =>
  ok {| device_id := d; temp_c := t; hum := h; timestamp_ms := ts;
        temp_times10 := t10; hum_times10 := h10 |})))))).

(** Lines 111 to 116. *)
Definition pinata_payload (r : Reading) : pyval :=
  PyDict [("device_id", device_id r);
          ("temperature_c", PyFloat (temp_c r));
          ("humidity_percent", PyFloat (hum r));
          ("timestamp_ms", PyInt (timestamp_ms r))].

(** The headers of line 71. *)
Definition pinata_headers (cfg : Config) : list (string * string) :=
  [("Authorization", String.append "Bearer " (PINATA_JWT cfg));
   ("Content-Type", "application/json")].

(** The arguments of line 123. *)
Definition storeReading_args (r : Reading) (cid : pyval) : list pyval :=
  [device_id r; PyInt (temp_times10 r); PyInt (hum_times10 r);
   PyInt (timestamp_ms r); cid].

Definition storeReading_fn (r : Reading) (cid : pyval) : ContractFunction :=
  {| fn_name := "storeReading"; fn_args := storeReading_args r cid |}.

(** The dict of lines 125 to 131. *)
Definition tx_params (cfg : Config) (nonce price : Z) : TxParams :=
  {| tx_from := account_address cfg;
     tx_nonce := nonce;
     tx_gas := 300000;
     tx_gasPrice := price;
     tx_chainId := CHAIN_ID cfg |}.

(** The dict of lines 143 to 148. *)
Definition response_ok (tx_hash : bytes) (receipt : TxReceipt) (cid : pyval) : pyval :=
  PyDict [("status", PyStr "ok");
          ("tx_hash", PyStr (hex tx_hash));
          ("block", PyInt (blockNumber receipt));
          ("cid", cid)].

(** Lines 120 to 148: the ledger write. *)
Definition submit {W} (node : World W) (cfg : Config)
    (r : Reading) (cid : pyval) : M W pyval :=
  nonce <- call (GetTransactionCount (account_address cfg))
                (get_transaction_count node (account_address cfg)) ;;
  call (StoreReading (storeReading_args r cid))
       (storeReading node (storeReading_args r cid)) ;;
  price <- call GasPrice (gas_price node) ;;
  tx <- call (BuildTransaction (storeReading_fn r cid) (tx_params cfg nonce price))
             (build_transaction node (storeReading_fn r cid) (tx_params cfg nonce price)) ;;
  raw_transaction <- call (SignTransaction tx (PRIVATE_KEY cfg))
                          (sign_transaction node tx (PRIVATE_KEY cfg)) ;;
  tx_hash <- call (SendRawTransaction raw_transaction)
                  (send_raw_transaction node raw_transaction) ;;
  print [PVal (PyStr "[INFO] Tx enviada:"); PVal (PyStr (hex tx_hash))] ;;
  receipt <- call (WaitForTransactionReceipt tx_hash)
                  (wait_for_transaction_receipt node tx_hash) ;;
  print [PVal (PyStr "[INFO] Tx minada en bloque:"); PVal (PyInt (blockNumber receipt))] ;;
  ret (response_ok tx_hash receipt cid).

(** Lines 77 to 79: what the [try] block reads in a response. *)
Definition ipfs_hash (r : Response) : result pyval :=
  and_then (raise_for_status r) (fun _ =>
  and_then (response_json r) (fun res =>
  py_get res "IpfsHash" PyNone)).

(** The request of line 76. *)
Definition pinata_request (cfg : Config) (payload : pyval) : event :=
  RequestsPost PINATA_URL payload (pinata_headers cfg) 30.

(** The lines printed by [subir_a_pinata]. *)
Definition warn_line : event :=
  Print [PVal (PyStr "[WARN] PINATA_JWT vacío, no se subirá a IPFS.")].

Definition uploaded_line (cid : pyval) : event :=
  Print [PVal (PyStr "[INFO] Subido a Pinata, CID:"); PVal cid].

Definition upload_error_line (e : exn) : event :=
  Print [PVal (PyStr "[ERROR] Error subiendo a Pinata:"); PExn e].

(** The first line of the handler. *)
Definition debug_line (data : pyval) : event :=
  Print [PVal (PyStr "[DEBUG] Payload recibido:"); PVal data].

(** The state of a run once an event has been recorded. *)
Definition logged {W} (ev : event) (st : run W) : run W :=
  {| world := world st; trace := trace st ++ [ev] |}.

(** The required fields, in the order lines 102 to 104 read them. *)
Inductive field : Type := Temperature | Humidity | TimestampMs.

Definition field_key (f : field) : string :=
  match f with
  | Temperature => "temperature"
  | Humidity => "humidity"
  | TimestampMs => "timestamp_ms"
  end.

(** The conversion applied to the field, its value dropped. *)
Definition field_conv (py : Builtins) (f : field) (v : pyval) : result unit :=
  match f with
  | Temperature | Humidity => and_then (py_float py v) (fun _ => ok tt)
  | TimestampMs => and_then (py_int py v) (fun _ => ok tt)
  end.

Definition field_index (f : field) : nat :=
  match f with
  | Temperature => 0
  | Humidity => 1
  | TimestampMs => 2
  end.

(** [float(data[key])] or [int(data[key])]: does the field read? *)
Definition field_check (py : Builtins) (data : pyval) (f : field) : result unit :=
  and_then (py_getitem data (field_key f)) (field_conv py f).

(** ** Events *)

Definition is_http (e : event) : bool :=
  match e with
  | RequestsPost _ _ _ _ => true
  | _ => false
  end.

Definition is_ledger (e : event) : bool :=
  match e with
  | Print _ | RequestsPost _ _ _ _ => false
  | _ => true
  end.

Definition is_nonce_query (e : event) : bool :=
  match e with
  | GetTransactionCount _ => true
  | _ => false
  end.

Definition is_build (e : event) : bool :=
  match e with
  | BuildTransaction _ _ => true
  | _ => false
  end.

(** The nonces of the transactions built in a trace. *)
Definition nonces (tr : list event) : list Z :=
  flat_map (fun e => match e with
                     | BuildTransaction _ p => [tx_nonce p]
                     | _ => []
                     end) tr.

(** ** Rounding *)

(** [n] is the integer nearest to [num / den], and the even one of the
    two when [num / den] is half way between them ([den] positive). *)
Definition nearest_tie_even (num den n : Z) : Prop :=
  Z.abs (2 * num - 2 * n * den) <= den /\
  (Z.abs (2 * num - 2 * n * den) = den -> Z.even n = true).

(** A finite float [(-1)^s * m * 2^e] as a fraction. *)
Definition SF_num (s : bool) (m : positive) (e : Z) : Z :=
  (if s then - Z.pos m else Z.pos m) * 2 ^ Z.max e 0.

Definition SF_den (e : Z) : Z := 2 ^ Z.max (- e) 0.

(** [n] is the exact value of the float [x], rounded half to even. *)
Definition rounds_to (x : float) (n : Z) : Prop :=
  match Prim2SF x with
  | S754_zero _ => n = 0
  | S754_finite s m e => nearest_tie_even (SF_num s m e) (SF_den e) n
  | _ => False
  end.

(** ** Test worlds *)

Definition sample_cid : string := "QmYwAPJzv5CZsnA625s3Xf2nemtYgPpHdWEz79ojWnPbdG".

Definition sample_hash : bytes :=
  repeat Byte.xab 32.

(** A node and an archive service that answer every call; the state is the
    number of transactions the account has sent. *)
Definition happy_world : World nat := {|
  requests_post := fun _ _ _ _ k =>
    (ok {| status_code := 200;
           body_json := Some (PyDict [("IpfsHash", PyStr sample_cid)]) |}, k);
  get_transaction_count := fun _ k => (ok (Z.of_nat k), k);
  storeReading := fun _ k => (ok tt, k);
  gas_price := fun k => (ok 1500000000, k);
  build_transaction := fun fn p k =>
    (ok (PyDict [("nonce", PyInt (tx_nonce p)); ("gas", PyInt (tx_gas p))]), k);
  sign_transaction := fun _ _ k => (ok [Byte.x02; Byte.xf8], k);
  send_raw_transaction := fun _ k => (ok sample_hash, S k);
  wait_for_transaction_receipt := fun h k =>
    (ok {| transactionHash := h; blockNumber := 4242; status := 1 |}, k)
|}.

(** The same node, with an archive service that cannot be reached. *)
Definition archive_down_world : World nat := {|
  requests_post := fun _ _ _ _ k => (err (LibraryError "ConnectionError"), k);
  get_transaction_count := get_transaction_count happy_world;
  storeReading := storeReading happy_world;
  gas_price := gas_price happy_world;
  build_transaction := build_transaction happy_world;
  sign_transaction := sign_transaction happy_world;
  send_raw_transaction := send_raw_transaction happy_world;
  wait_for_transaction_receipt := wait_for_transaction_receipt happy_world
|}.

Definition sample_config : Config := {|
  CONTRACT_ADDRESS := "0x5FbDB2315678afecb367f032d93F642f64180aa3";
  PRIVATE_KEY := "0xkey";
  CHAIN_ID := 11155111;
  PINATA_JWT := "jwt";
  account_address := "0xf39Fd6e51aad88F6F4ce6aB8827279cffFb92266"
|}.

(** The configuration of a process started without [PINATA_JWT]. *)
Definition empty_environ : string -> option string := fun _ => None.

Definition no_jwt_config : Config := {|
  CONTRACT_ADDRESS := CONTRACT_ADDRESS sample_config;
  PRIVATE_KEY := PRIVATE_KEY sample_config;
  CHAIN_ID := CHAIN_ID sample_config;
  PINATA_JWT := environ_get empty_environ "PINATA_JWT" "";
  account_address := account_address sample_config
|}.

(** An interpreter whose [float(str)] and [int(str)] reject every string. *)
Definition no_str_parsing : Builtins := {|
  float_of_str := fun _ => None;
  int_of_str := fun _ => None
|}.

Definition start {W} (w : W) : run W := {| world := w; trace := [] |}.

(** A reading whose temperature is [null]. *)
Definition null_temperature : pyval :=
  PyDict [("temperature", PyNone);
          ("humidity", PyFloat 70.1);
          ("timestamp_ms", PyInt 1731000000000)].

Definition sample_reading : pyval :=
  PyDict [("device_id", PyStr "esp32-1");
          ("temperature", PyFloat 25.3);
          ("humidity", PyFloat 70.1);
          ("timestamp_ms", PyInt 1731000000000)].

(** What lines 101 to 108 make of [sample_reading]. *)
Definition sample_fields : Reading :=
  {| device_id := PyStr "esp32-1"; temp_c := 25.3; hum := 70.1;
     timestamp_ms := 1731000000000; temp_times10 := 253; hum_times10 := 701 |}.

(** A reading without [device_id], and what lines 101 to 108 make of it. *)
Definition anonymous_reading : pyval :=
  PyDict [("temperature", PyFloat 25.3);
          ("humidity", PyFloat 70.1);
          ("timestamp_ms", PyInt 1731000000000)].

Definition anonymous_fields : Reading :=
  {| device_id := PyStr "unknown-device"; temp_c := 25.3; hum := 70.1;
     timestamp_ms := 1731000000000; temp_times10 := 253; hum_times10 := 701 |}.


(** ** Start-up

    Lines 12 to 54 run once, when the module is imported: they read the
    environment, refuse to go on without the settings or without a node,
    and bind the names the handler reads. *)

(** The two ways the module can fail to load: one of its own
    [RuntimeError]s, or an exception of a built-in or a library. *)
Inductive boot_error : Type :=
| RuntimeError (message : string)
| Raised (e : exn).

(** What start-up does to the outside, in the order it does it. *)
Inductive boot_event : Type :=
| ToChecksumAddress (value : option string)
| IsConnected (rpc_url : string)
| FromKey (private_key : string)
| BootPrint (args : list printed)
| EthContract (address : string).

(** The library calls of start-up. [is_connected] answers for the
    provider built on the URL it is given; [from_key] gives the address of
    the account. *)
Record Boot (W : Type) : Type := {
  to_checksum_address : option string -> W -> result string * W;
  is_connected : string -> W -> bool * W;
  from_key : string -> W -> result string * W;
  eth_contract : string -> W -> result unit * W
}.

Arguments to_checksum_address {W}.
Arguments is_connected {W}.
Arguments from_key {W}.
Arguments eth_contract {W}.

(** [not x] for what [os.getenv] returns. *)
Definition unset (x : option string) : bool :=
  match x with
  | None => true
  | Some v => String.eqb v ""
  end.

Definition missing_settings_message : string :=
  "Variables de entorno (RPC_URL, PRIVATE_KEY, CONTRACT_ADDRESS) no están configuradas.".

Definition not_connected_message : string :=
  "No se pudo conectar a Sepolia. Revisa RPC_URL / Internet.".

(** Lines 12 to 54. The state is the outside world and the calls made so
    far. *)
Definition startup {W} (boot : Boot W) (py : Builtins)
    (environ : string -> option string) (w0 : W)
    : (boot_error + Config) * (W * list boot_event) :=
  let RPC_URL := environ "RPC_URL" in
  let ev1 := ToChecksumAddress (environ "CONTRACT_ADDRESS") in
  match to_checksum_address boot (environ "CONTRACT_ADDRESS") w0 with
  | (inl e, w1) => (inl (Raised e), (w1, [ev1]))
  | (inr contract_address, w1) =>
      let PRIVATE_KEY := environ "PRIVATE_KEY" in
      match py_int py (PyStr (environ_get environ "CHAIN_ID" "11155111")) with
      | inl e => (inl (Raised e), (w1, [ev1]))
      | inr chain_id =>
          let pinata_jwt := environ_get environ "PINATA_JWT" "" in
          match RPC_URL, PRIVATE_KEY with
          | Some rpc_url, Some private_key =>
              if unset RPC_URL || unset PRIVATE_KEY || String.eqb contract_address ""
              then (inl (RuntimeError missing_settings_message), (w1, [ev1]))
              else
                let ev2 := IsConnected rpc_url in
                match is_connected boot rpc_url w1 with
                | (false, w2) =>
                    (inl (RuntimeError not_connected_message), (w2, [ev1; ev2]))
                | (true, w2) =>
                    let ev3 := FromKey private_key in
                    match from_key boot private_key w2 with
                    | (inl e, w3) => (inl (Raised e), (w3, [ev1; ev2; ev3]))
                    | (inr address, w3) =>
                        let ev4 :=
                          BootPrint [PVal (PyStr "[INFO] Relayer usando cuenta:");
                                     PVal (PyStr address)] in
                        let ev5 := EthContract contract_address in
                        match eth_contract boot contract_address w3 with
                        | (inl e, w4) =>
                            (inl (Raised e), (w4, [ev1; ev2; ev3; ev4; ev5]))
                        | (inr _, w4) =>
                            (inr {| CONTRACT_ADDRESS := contract_address;
                                    PRIVATE_KEY := private_key;
                                    CHAIN_ID := chain_id;
                                    PINATA_JWT := pinata_jwt;
                                    account_address := address |},
                             (w4, [ev1; ev2; ev3; ev4; ev5]))
                        end
                    end
                end
          | _, _ => (inl (RuntimeError missing_settings_message), (w1, [ev1]))
          end
      end
  end.

Definition touches_node (e : boot_event) : bool :=
  match e with
  | IsConnected _ => true
  | _ => false
  end.

Definition uses_key (e : boot_event) : bool :=
  match e with
  | FromKey _ => true
  | _ => false
  end.

(** ** More vocabulary *)

(** The place of a call in the handler; a printed line has none. *)
Definition call_rank (e : event) : option nat :=
  match e with
  | Print _ => None
  | RequestsPost _ _ _ _ => Some 0%nat
  | GetTransactionCount _ => Some 1%nat
  | StoreReading _ => Some 2%nat
  | GasPrice => Some 3%nat
  | BuildTransaction _ _ => Some 4%nat
  | SignTransaction _ _ => Some 5%nat
  | SendRawTransaction _ => Some 6%nat
  | WaitForTransactionReceipt _ => Some 7%nat
  end.

Definition call_ranks (tr : list event) : list nat :=
  flat_map (fun e => match call_rank e with
                     | Some n => [n]
                     | None => []
                     end) tr.



(** [n] is the exact value of the float [x] with its fraction dropped. *)
Definition truncates_to (x : float) (n : Z) : Prop :=
  match Prim2SF x with
  | S754_zero _ => n = 0
  | S754_finite s m e =>
      Z.abs n * SF_den e <= Z.pos m * 2 ^ Z.max e 0 < (Z.abs n + 1) * SF_den e /\
      (if s then n <= 0 else 0 <= n)
  | _ => False
  end.

(** Does [x * 10] have a value [round()] can round? *)
Definition roundable (x : float) : bool :=
  match Prim2SF (x * 10)%float with
  | S754_nan | S754_infinity _ => false
  | _ => true
  end.

(** ** More test worlds *)

(** A library and a node that let the process start. *)
Definition happy_boot : Boot nat := {|
  to_checksum_address := fun value k =>
    match value with
    | Some v => (ok v, k)
    | None => (err TypeError, k)
    end;
  is_connected := fun _ k => (true, k);
  from_key := fun _ k => (ok (account_address sample_config), k);
  eth_contract := fun _ k => (ok tt, k)
|}.

(** The same library, with a node that does not answer. *)
Definition offline_boot : Boot nat := {|
  to_checksum_address := to_checksum_address happy_boot;
  is_connected := fun _ k => (false, k);
  from_key := from_key happy_boot;
  eth_contract := eth_contract happy_boot
|}.

(** An interpreter that reads the default chain id, and no other string. *)
Definition sepolia_only : Builtins := {|
  float_of_str := fun _ => None;
  int_of_str := fun s => if String.eqb s "11155111" then Some 11155111 else None
|}.

(** An environment with the three required settings and nothing else. *)
Definition minimal_environ : string -> option string :=
  fun name =>
    if String.eqb name "RPC_URL" then Some "https://rpc.sepolia.example"
    else if String.eqb name "CONTRACT_ADDRESS"
         then Some (CONTRACT_ADDRESS sample_config)
    else if String.eqb name "PRIVATE_KEY" then Some (PRIVATE_KEY sample_config)
    else None.

(** The same environment without [PRIVATE_KEY]. *)
Definition keyless_environ : string -> option string :=
  fun name =>
    if String.eqb name "PRIVATE_KEY" then None else minimal_environ name.

(** Readings on the edges of what lines 101 to 108 accept. *)
Definition null_device_reading : pyval :=
  PyDict [("device_id", PyNone);
          ("temperature", PyFloat 25.3);
          ("humidity", PyFloat 70.1);
          ("timestamp_ms", PyInt 1731000000000)].

Definition null_device_fields : Reading :=
  {| device_id := PyNone; temp_c := 25.3; hum := 70.1;
     timestamp_ms := 1731000000000; temp_times10 := 253; hum_times10 := 701 |}.

Definition huge_temperature_reading : pyval :=
  PyDict [("temperature", PyFloat 1e308);
          ("humidity", PyFloat 70.1);
          ("timestamp_ms", PyInt 1731000000000)].

Definition fractional_timestamp_reading : pyval :=
  PyDict [("temperature", PyFloat 25.3);
          ("humidity", PyFloat 70.1);
          ("timestamp_ms", PyFloat 1731000000000.75)].

Definition fractional_timestamp_fields : Reading :=
  {| device_id := PyStr "unknown-device"; temp_c := 25.3; hum := 70.1;
     timestamp_ms := 1731000000000; temp_times10 := 253; hum_times10 := 701 |}.


(** An archive service that answers with a number where the CID goes. *)
Definition numeric_cid_world : World nat := {|
  requests_post := fun _ _ _ _ k =>
    (ok {| status_code := 200;
           body_json := Some (PyDict [("IpfsHash", PyInt 42)]) |}, k);
  get_transaction_count := get_transaction_count happy_world;
  storeReading := storeReading happy_world;
  gas_price := gas_price happy_world;
  build_transaction := build_transaction happy_world;
  sign_transaction := sign_transaction happy_world;
  send_raw_transaction := send_raw_transaction happy_world;
  wait_for_transaction_receipt := wait_for_transaction_receipt happy_world
|}.

(** What start-up makes of [minimal_environ]. *)
Definition started_config : Config := {|
  CONTRACT_ADDRESS := CONTRACT_ADDRESS sample_config;
  PRIVATE_KEY := PRIVATE_KEY sample_config;
  CHAIN_ID := 11155111;
  PINATA_JWT := "";
  account_address := account_address sample_config
|}.

(** A body that is a list. *)
Definition list_payload : pyval := PyList [sample_reading].

(** * Properties *)

(** ** Rounding *)

Lemma nearest_tie_even_opp num den n :
  nearest_tie_even num den n -> nearest_tie_even (- num) den (- n).
Proof.
  unfold nearest_tie_even. intros [Hle Htie].
  replace (2 * - num - 2 * - n * den) with (- (2 * num - 2 * n * den)) by ring.
  rewrite Z.abs_opp, Z.even_opp. auto.
Qed.

Lemma round_half_even_nearest m e :
  nearest_tie_even (SF_num false m e) (SF_den e) (round_half_even m e).
Proof.
  unfold nearest_tie_even, SF_num, SF_den, round_half_even.
  destruct (Z.leb_spec 0 e) as [Hge | Hlt].
  - rewrite Z.max_l, Z.max_r by lia. change (2 ^ 0) with 1.
    replace (2 * (Z.pos m * 2 ^ e) - 2 * (Z.pos m * 2 ^ e) * 1) with 0 by ring.
    split; simpl; lia.
  - rewrite Z.max_r, Z.max_l by lia. change (2 ^ 0) with 1.
    set (d := 2 ^ (- e)).
    assert (Hd : 0 < d) by (apply Z.pow_pos_nonneg; lia).
    pose proof (Z.div_mod (Z.pos m) d ltac:(lia)) as Hdm.
    pose proof (Z.mod_pos_bound (Z.pos m) d Hd) as Hr.
    set (q := Z.pos m / d) in *. set (r := Z.pos m mod d) in *.
    rewrite Z.mul_1_r.
    destruct (Z.compare_spec (2 * r) d) as [Heq | Hc | Hc].
    + destruct (Z.even q) eqn:Hq.
      * split; [nia | auto].
      * split; [nia |]. intros _.
        rewrite Z.add_1_r, Z.even_succ, <- Z.negb_even, Hq. reflexivity.
    + split; [nia | intros Habs; exfalso; nia].
    + split; [nia | intros Habs; exfalso; nia].
Qed.

Lemma py_round_rounds_to x n : py_round x = ok n -> rounds_to x n.
Proof.
  unfold py_round, rounds_to. destruct (Prim2SF x) as [s | s | | s m e]; try discriminate.
  - intros H; injection H as <-. reflexivity.
  - intros H; injection H as <-. destruct s.
    + change (SF_num true m e) with (- Z.pos m * 2 ^ Z.max e 0).
      replace (- Z.pos m * 2 ^ Z.max e 0) with (- SF_num false m e)
        by (unfold SF_num; ring).
      apply nearest_tie_even_opp, round_half_even_nearest.
    + apply round_half_even_nearest.
Qed.

Example py_round_ties :
  map py_round [0.5; 1.5; 2.5; -0.5; -1.5; 252.5; 253.5]%float =
  map (fun n => ok n) [0; 2; 2; 0; -2; 252; 254].
Proof. vm_compute. reflexivity. Qed.

Example py_round_not_finite :
  map py_round [nan; infinity; neg_infinity]%float =
  [err ValueError; err OverflowError; err OverflowError].
Proof. vm_compute. reflexivity. Qed.

Example int_of_float_truncates :
  map int_of_float [2.7; -2.7; 1731000000000.9; -0.3]%float =
  map (fun n => ok n) [2; -2; 1731000000000; 0].
Proof. vm_compute. reflexivity. Qed.

Example float_of_int_nearest_even :
  float_of_int (2 ^ 53 + 1) = ok 9007199254740992%float /\
  float_of_int (2 ^ 53 + 3) = ok 9007199254740996%float /\
  float_of_int (2 ^ 1024) = err OverflowError.
Proof. vm_compute. repeat split. Qed.

(** ** The handler, phase by phase *)

Section Phases.

Context {W : Type}.
Variable node : World W.
Variable cfg : Config.
Variable py : Builtins.

Lemma recibir_lectura_phases data st :
  recibir_lectura node cfg py data st =
  match validate py data with
  | inl e => (err e, logged (debug_line data) st)
  | inr r =>
      bind (subir_a_pinata node cfg (pinata_payload r))
           (fun up => submit node cfg r (py_or up (PyStr "")))
           (logged (debug_line data) st)
  end.
Proof.
  unfold recibir_lectura, validate.
  unfold bind at 1. unfold print at 1. fold (logged (debug_line data) st).
  set (st0 := logged (debug_line data) st).
  unfold bind at 1, lift at 1.
  destruct (py_get data "device_id" (PyStr "unknown-device")) as [e | d]; [reflexivity |].
  cbn [and_then].
  unfold bind at 1, lift at 1.
  destruct (and_then (py_getitem data "temperature") (py_float py)) as [e | t]; [reflexivity |].
  cbn [and_then].
  unfold bind at 1, lift at 1.
  destruct (and_then (py_getitem data "humidity") (py_float py)) as [e | h]; [reflexivity |].
  cbn [and_then].
  unfold bind at 1, lift at 1.
  destruct (and_then (py_getitem data "timestamp_ms") (py_int py)) as [e | ts]; [reflexivity |].
  cbn [and_then].
  unfold bind at 1, lift at 1.
  destruct (scale py t) as [e | t10]; [reflexivity |].
  cbn [and_then].
  unfold bind at 1, lift at 1.
  destruct (scale py h) as [e | h10]; [reflexivity |].
  reflexivity.
Qed.

(** Case analysis on the answers of the collaborators, in call order. *)
Ltac case_answer :=
  match goal with
  | |- context [let (_, _) := ?x in _] =>
      lazymatch x with
      | (let (_, _) := _ in _) => fail
      | _ =>
          let E := fresh "Hanswer" in
          destruct x as [[?e | ?a] ?w] eqn:E; cbn [world trace]
      end
  end.

Ltac run_cases :=
  unfold bind, call, print, ret, lift; cbn [world trace];
  repeat case_answer;
  cbn [fst snd world trace];
  repeat rewrite <- app_assoc; cbn [app].

Lemma submit_begins r cid st :
  exists rest,
    trace (snd (submit node cfg r cid st)) =
      trace st ++ GetTransactionCount (account_address cfg) :: rest /\
    Forall (fun e => is_http e = false) rest /\
    (forall args, In (StoreReading args) rest -> args = storeReading_args r cid) /\
    (forall fn p, In (BuildTransaction fn p) rest ->
       fn = storeReading_fn r cid /\ tx_gas p = 300000 /\
       tx_chainId p = CHAIN_ID cfg /\ tx_from p = account_address cfg).
Proof.
  unfold submit. run_cases.
  all: eexists; split; [reflexivity |].
  all: split; [repeat constructor |].
  all: split; [intros args Hin | intros fn p Hin]; cbn [In] in Hin.
  all: repeat match goal with
         | H : _ \/ _ |- _ => destruct H as [H | H]
         end; try discriminate; try contradiction.
  all: try (injection Hin as <-; reflexivity).
  all: injection Hin as <- <-; repeat split.
Qed.

Lemma submit_reaches_build r cid st n w2 w3 g w4 :
  get_transaction_count node (account_address cfg) (world st) = (ok n, w2) ->
  storeReading node (storeReading_args r cid) w2 = (ok tt, w3) ->
  gas_price node w3 = (ok g, w4) ->
  exists rest,
    trace (snd (submit node cfg r cid st)) =
      trace st ++
      [GetTransactionCount (account_address cfg);
       StoreReading (storeReading_args r cid);
       GasPrice;
       BuildTransaction (storeReading_fn r cid) (tx_params cfg n g)] ++ rest /\
    Forall (fun e => is_nonce_query e = false /\ is_build e = false) rest.
Proof.
  intros Hn Hs Hg. unfold submit.
  unfold bind, call at 1 2 3 4. cbn [world trace].
  rewrite Hn. cbn [world trace]. rewrite Hs. cbn [world trace].
  rewrite Hg. cbn [world trace].
  run_cases. all: eexists; split; [reflexivity | repeat constructor].
Qed.

Lemma submit_reaches_broadcast r cid st n w2 w3 g w4 tx w5 raw w6 :
  get_transaction_count node (account_address cfg) (world st) = (ok n, w2) ->
  storeReading node (storeReading_args r cid) w2 = (ok tt, w3) ->
  gas_price node w3 = (ok g, w4) ->
  build_transaction node (storeReading_fn r cid) (tx_params cfg n g) w4 = (ok tx, w5) ->
  sign_transaction node tx (PRIVATE_KEY cfg) w5 = (ok raw, w6) ->
  exists rest,
    trace (snd (submit node cfg r cid st)) =
      trace st ++
      [GetTransactionCount (account_address cfg);
       StoreReading (storeReading_args r cid);
       GasPrice;
       BuildTransaction (storeReading_fn r cid) (tx_params cfg n g);
       SignTransaction tx (PRIVATE_KEY cfg);
       SendRawTransaction raw] ++ rest.
Proof.
  intros Hn Hs Hg Hb Hsig. unfold submit.
  unfold bind, call at 1 2 3 4 5. cbn [world trace].
  rewrite Hn. cbn [world trace]. rewrite Hs. cbn [world trace].
  rewrite Hg. cbn [world trace]. rewrite Hb. cbn [world trace].
  rewrite Hsig. cbn [world trace].
  run_cases. all: eexists; reflexivity.
Qed.

Lemma submit_ok r cid st n w2 w3 g w4 tx w5 raw w6 h w7 rc w8 :
  get_transaction_count node (account_address cfg) (world st) = (ok n, w2) ->
  storeReading node (storeReading_args r cid) w2 = (ok tt, w3) ->
  gas_price node w3 = (ok g, w4) ->
  build_transaction node (storeReading_fn r cid) (tx_params cfg n g) w4 = (ok tx, w5) ->
  sign_transaction node tx (PRIVATE_KEY cfg) w5 = (ok raw, w6) ->
  send_raw_transaction node raw w6 = (ok h, w7) ->
  wait_for_transaction_receipt node h w7 = (ok rc, w8) ->
  submit node cfg r cid st =
    (ok (response_ok h rc cid),
     {| world := w8;
        trace := trace st ++
          [GetTransactionCount (account_address cfg);
           StoreReading (storeReading_args r cid);
           GasPrice;
           BuildTransaction (storeReading_fn r cid) (tx_params cfg n g);
           SignTransaction tx (PRIVATE_KEY cfg);
           SendRawTransaction raw;
           Print [PVal (PyStr "[INFO] Tx enviada:"); PVal (PyStr (hex h))];
           WaitForTransactionReceipt h;
           Print [PVal (PyStr "[INFO] Tx minada en bloque:");
                  PVal (PyInt (blockNumber rc))]] |}).
Proof.
  intros Hn Hs Hg Hb Hsig Hsend Hwait. unfold submit.
  unfold bind, call, print, ret. cbn [world trace].
  rewrite Hn. cbn [world trace]. rewrite Hs. cbn [world trace].
  rewrite Hg. cbn [world trace]. rewrite Hb. cbn [world trace].
  rewrite Hsig. cbn [world trace]. rewrite Hsend. cbn [world trace].
  rewrite Hwait. cbn [world trace].
  repeat rewrite <- app_assoc. reflexivity.
Qed.

(** An exception of the confirmation wait, [TimeExhausted] among them,
    is the outcome of the request: no response is assembled. *)
Lemma submit_wait_raises r cid st n w2 w3 g w4 tx w5 raw w6 h w7 e w8 :
  get_transaction_count node (account_address cfg) (world st) = (ok n, w2) ->
  storeReading node (storeReading_args r cid) w2 = (ok tt, w3) ->
  gas_price node w3 = (ok g, w4) ->
  build_transaction node (storeReading_fn r cid) (tx_params cfg n g) w4 = (ok tx, w5) ->
  sign_transaction node tx (PRIVATE_KEY cfg) w5 = (ok raw, w6) ->
  send_raw_transaction node raw w6 = (ok h, w7) ->
  wait_for_transaction_receipt node h w7 = (err e, w8) ->
  submit node cfg r cid st =
    (err e,
     {| world := w8;
        trace := trace st ++
          [GetTransactionCount (account_address cfg);
           StoreReading (storeReading_args r cid);
           GasPrice;
           BuildTransaction (storeReading_fn r cid) (tx_params cfg n g);
           SignTransaction tx (PRIVATE_KEY cfg);
           SendRawTransaction raw;
           Print [PVal (PyStr "[INFO] Tx enviada:"); PVal (PyStr (hex h))];
           WaitForTransactionReceipt h] |}).
Proof.
  intros Hn Hs Hg Hb Hsig Hsend Hwait. unfold submit.
  unfold bind, call, print, ret. cbn [world trace].
  rewrite Hn. cbn [world trace]. rewrite Hs. cbn [world trace].
  rewrite Hg. cbn [world trace]. rewrite Hb. cbn [world trace].
  rewrite Hsig. cbn [world trace]. rewrite Hsend. cbn [world trace].
  rewrite Hwait. cbn [world trace].
  repeat rewrite <- app_assoc. reflexivity.
Qed.

(** *** The archive step *)

Lemma jwt_empty_not_truthy :
  PINATA_JWT cfg = "" -> negb (truthy (PyStr (PINATA_JWT cfg))) = true.
Proof. intros ->. reflexivity. Qed.

Lemma jwt_nonempty_truthy :
  PINATA_JWT cfg <> "" -> negb (truthy (PyStr (PINATA_JWT cfg))) = false.
Proof.
  intros Hne. cbn [truthy]. destruct (String.eqb_spec (PINATA_JWT cfg) ""); [contradiction | reflexivity].
Qed.

Lemma subir_a_pinata_skip payload st :
  PINATA_JWT cfg = "" ->
  subir_a_pinata node cfg payload st = (ok PyNone, logged warn_line st).
Proof.
  intros Hjwt. unfold subir_a_pinata. rewrite (jwt_empty_not_truthy Hjwt). reflexivity.
Qed.

Lemma subir_a_pinata_upload payload st :
  PINATA_JWT cfg <> "" ->
  subir_a_pinata node cfg payload st =
  match requests_post node PINATA_URL payload (pinata_headers cfg) 30 (world st) with
  | (inl e, w1) =>
      (ok PyNone,
       {| world := w1;
          trace := trace st ++ [pinata_request cfg payload; upload_error_line e] |})
  | (inr r, w1) =>
      match ipfs_hash r with
      | inl e =>
          (ok PyNone,
           {| world := w1;
              trace := trace st ++ [pinata_request cfg payload; upload_error_line e] |})
      | inr cid =>
          (ok cid,
           {| world := w1;
              trace := trace st ++ [pinata_request cfg payload; uploaded_line cid] |})
      end
  end.
Proof.
  intros Hjwt. unfold subir_a_pinata. rewrite (jwt_nonempty_truthy Hjwt).
  unfold try_except, bind, call, lift, print, ret, ipfs_hash, pinata_request. cbn [world trace].
  fold (pinata_headers cfg).
  destruct (requests_post node PINATA_URL payload (pinata_headers cfg) 30 (world st))
    as [[e | r] w1]; cbn [world trace].
  - rewrite <- app_assoc. reflexivity.
  - destruct (raise_for_status r) as [e | []]; cbn [and_then world trace].
    + rewrite <- app_assoc. reflexivity.
    + destruct (response_json r) as [e | res]; cbn [and_then world trace].
      * rewrite <- app_assoc. reflexivity.
      * destruct (py_get res "IpfsHash" PyNone) as [e | cid]; cbn [world trace];
          rewrite <- app_assoc; reflexivity.
Qed.

(** The archive step returns, whatever the service does. *)
Lemma subir_a_pinata_returns payload st :
  exists up, fst (subir_a_pinata node cfg payload st) = ok up.
Proof.
  destruct (String.eqb_spec (PINATA_JWT cfg) "") as [Hjwt | Hjwt].
  - rewrite (subir_a_pinata_skip payload st Hjwt). eexists; reflexivity.
  - rewrite (subir_a_pinata_upload payload st Hjwt).
    destruct (requests_post node PINATA_URL payload (pinata_headers cfg) 30 (world st))
      as [[e | r] w1]; [eexists; reflexivity |].
    destruct (ipfs_hash r); eexists; reflexivity.
Qed.

(** The archive step calls nothing but the archive service, once at most. *)
Lemma subir_a_pinata_trace payload st :
  exists new,
    trace (snd (subir_a_pinata node cfg payload st)) = trace st ++ new /\
    Forall (fun e => is_ledger e = false) new /\
    (forall e, In e new -> is_http e = true -> e = pinata_request cfg payload) /\
    (PINATA_JWT cfg = "" -> Forall (fun e => is_http e = false) new).
Proof.
  destruct (String.eqb_spec (PINATA_JWT cfg) "") as [Hjwt | Hjwt].
  - rewrite (subir_a_pinata_skip payload st Hjwt).
    exists [warn_line]. repeat split.
    + repeat constructor.
    + intros e [<- | []]. discriminate.
    + repeat constructor.
  - rewrite (subir_a_pinata_upload payload st Hjwt).
    destruct (requests_post node PINATA_URL payload (pinata_headers cfg) 30 (world st))
      as [[e | r] w1]; [| destruct (ipfs_hash r)].
    all: eexists; split; [reflexivity |].
    all: split; [repeat constructor |].
    all: split; [| contradiction].
    all: intros ev [<- | [<- | []]]; [reflexivity | discriminate].
Qed.

Lemma recibir_lectura_invalid data st e :
  validate py data = err e ->
  recibir_lectura node cfg py data st = (err e, logged (debug_line data) st).
Proof. intros Hv. rewrite recibir_lectura_phases, Hv. reflexivity. Qed.

Lemma recibir_lectura_valid data st r up st1 :
  validate py data = ok r ->
  subir_a_pinata node cfg (pinata_payload r) (logged (debug_line data) st) = (ok up, st1) ->
  recibir_lectura node cfg py data st = submit node cfg r (py_or up (PyStr "")) st1.
Proof.
  intros Hv Hup. rewrite recibir_lectura_phases, Hv. unfold bind. rewrite Hup. reflexivity.
Qed.

Lemma py_or_str c : py_or (PyStr c) (PyStr "") = PyStr c.
Proof.
  unfold py_or. cbn [truthy]. destruct (String.eqb_spec c "") as [-> | _]; reflexivity.
Qed.

Lemma ipfs_hash_ok r items v :
  raise_for_status r = ok tt ->
  body_json r = Some (PyDict items) ->
  lookup "IpfsHash" items = Some v ->
  ipfs_hash r = ok v.
Proof.
  intros Hs Hb Hl. unfold ipfs_hash, response_json. rewrite Hs, Hb. cbn [and_then py_get].
  rewrite Hl. reflexivity.
Qed.

Lemma subir_a_pinata_requests payload st :
  PINATA_JWT cfg <> "" ->
  exists rest,
    trace (snd (subir_a_pinata node cfg payload st)) =
      trace st ++ pinata_request cfg payload :: rest.
Proof.
  intros Hjwt. rewrite (subir_a_pinata_upload payload st Hjwt).
  destruct (requests_post node PINATA_URL payload (pinata_headers cfg) 30 (world st))
    as [[e | r] w1]; [| destruct (ipfs_hash r)]; eexists; reflexivity.
Qed.

Lemma submit_reaches_storeReading r cid st n w2 :
  get_transaction_count node (account_address cfg) (world st) = (ok n, w2) ->
  exists rest,
    trace (snd (submit node cfg r cid st)) =
      trace st ++
      [GetTransactionCount (account_address cfg);
       StoreReading (storeReading_args r cid)] ++ rest.
Proof.
  intros Hn. unfold submit.
  unfold bind, call at 1 2. cbn [world trace].
  rewrite Hn. cbn [world trace].
  run_cases. all: eexists; reflexivity.
Qed.

(** *** Failing fields *)

Lemma float_of_int_error z e : float_of_int z = err e -> e = OverflowError.
Proof.
  unfold float_of_int.
  destruct (binary_normalize prec emax z 0 false); intros H; try discriminate.
  injection H as <-. reflexivity.
Qed.

Lemma int_of_float_error x e :
  int_of_float x = err e -> e = ValueError \/ e = OverflowError.
Proof.
  unfold int_of_float.
  destruct (Prim2SF x); intros H; try discriminate; injection H as <-; auto.
Qed.

Lemma py_float_error v e :
  py_float py v = err e -> e = TypeError \/ e = ValueError \/ e = OverflowError.
Proof.
  destruct v as [| b | z | x | s | l | d]; cbn [py_float]; intros H; try discriminate.
  - injection H as <-; auto.
  - apply float_of_int_error in H. auto.
  - destruct (float_of_str py s); [discriminate | injection H as <-; auto].
  - injection H as <-; auto.
  - injection H as <-; auto.
Qed.

Lemma py_int_error v e :
  py_int py v = err e -> e = TypeError \/ e = ValueError \/ e = OverflowError.
Proof.
  destruct v as [| b | z | x | s | l | d]; cbn [py_int]; intros H; try discriminate.
  - injection H as <-; auto.
  - apply int_of_float_error in H. tauto.
  - destruct (int_of_str py s); [discriminate | injection H as <-; auto].
  - injection H as <-; auto.
  - injection H as <-; auto.
Qed.

Lemma field_conv_error f v e :
  field_conv py f v = err e -> e = TypeError \/ e = ValueError \/ e = OverflowError.
Proof.
  destruct f; cbn [field_conv]; intros H.
  - destruct (py_float py v) eqn:Hc; [| discriminate].
    injection H as <-. eapply py_float_error, Hc.
  - destruct (py_float py v) eqn:Hc; [| discriminate].
    injection H as <-. eapply py_float_error, Hc.
  - destruct (py_int py v) eqn:Hc; [| discriminate].
    injection H as <-. eapply py_int_error, Hc.
Qed.

(** A field that does not read is missing, and the exception is the
    [KeyError] of its key, or is there with a value the conversion
    rejects. *)
Lemma field_check_error items f e :
  field_check py (PyDict items) f = err e ->
  (lookup (field_key f) items = None /\ e = KeyError (field_key f)) \/
  (exists v, lookup (field_key f) items = Some v /\ field_conv py f v = err e /\
             (e = TypeError \/ e = ValueError \/ e = OverflowError)).
Proof.
  unfold field_check. cbn [py_getitem].
  destruct (lookup (field_key f) items) as [v |]; cbn [and_then]; intros H.
  - right. exists v. repeat split; [assumption |]. eapply field_conv_error, H.
  - left. injection H as <-. auto.
Qed.

Lemma field_check_temperature data :
  field_check py data Temperature =
  and_then (and_then (py_getitem data "temperature") (py_float py)) (fun _ => ok tt).
Proof. unfold field_check. cbn. destruct (py_getitem data "temperature"); reflexivity. Qed.

Lemma field_check_humidity data :
  field_check py data Humidity =
  and_then (and_then (py_getitem data "humidity") (py_float py)) (fun _ => ok tt).
Proof. unfold field_check. cbn. destruct (py_getitem data "humidity"); reflexivity. Qed.

Lemma field_check_timestamp_ms data :
  field_check py data TimestampMs =
  and_then (and_then (py_getitem data "timestamp_ms") (py_int py)) (fun _ => ok tt).
Proof. unfold field_check. cbn. destruct (py_getitem data "timestamp_ms"); reflexivity. Qed.

(** When a field of an object does not read, [validate] raises the
    exception of the first such field. *)
Lemma validate_first_failing_field items f0 e0 :
  field_check py (PyDict items) f0 = err e0 ->
  exists f e,
    field_check py (PyDict items) f = err e /\
    (forall g, (field_index g < field_index f)%nat ->
               field_check py (PyDict items) g = ok tt) /\
    validate py (PyDict items) = err e.
Proof.
  intros Hf0. set (data := PyDict items) in *.
  assert (Hget : exists d, py_get data "device_id" (PyStr "unknown-device") = ok d).
  { unfold data. cbn [py_get]. destruct (lookup "device_id" items); eexists; reflexivity. }
  destruct Hget as [d Hd].
  pose proof (field_check_temperature data) as HT.
  pose proof (field_check_humidity data) as HH.
  pose proof (field_check_timestamp_ms data) as HS.
  unfold validate. rewrite Hd. cbn [and_then].
  destruct (and_then (py_getitem data "temperature") (py_float py)) as [e | t].
  { exists Temperature, e. split; [rewrite HT; reflexivity |].
    split; [| reflexivity]. intros g Hg. destruct g; cbn in Hg; lia. }
  destruct (and_then (py_getitem data "humidity") (py_float py)) as [e | h].
  { exists Humidity, e. split; [rewrite HH; reflexivity |].
    split; [| reflexivity]. intros g Hg. destruct g; cbn in Hg; try lia. exact HT. }
  destruct (and_then (py_getitem data "timestamp_ms") (py_int py)) as [e | ts].
  { exists TimestampMs, e. split; [rewrite HS; reflexivity |].
    split; [| reflexivity]. intros g Hg. destruct g; cbn in Hg; try lia; assumption. }
  exfalso. destruct f0.
  - rewrite HT in Hf0. discriminate.
  - rewrite HH in Hf0. discriminate.
  - rewrite HS in Hf0. discriminate.
Qed.

Lemma validate_fields data r :
  validate py data = ok r ->
  py_get data "device_id" (PyStr "unknown-device") = ok (device_id r) /\
  and_then (py_getitem data "temperature") (py_float py) = ok (temp_c r) /\
  and_then (py_getitem data "humidity") (py_float py) = ok (hum r) /\
  and_then (py_getitem data "timestamp_ms") (py_int py) = ok (timestamp_ms r) /\
  scale py (temp_c r) = ok (temp_times10 r) /\
  scale py (hum r) = ok (hum_times10 r).
Proof.
  unfold validate. intros Hv.
  destruct (py_get data "device_id" (PyStr "unknown-device")) as [? | d];
    cbn [and_then] in Hv; [discriminate |].
  destruct (and_then (py_getitem data "temperature") (py_float py)) as [? | t];
    cbn [and_then] in Hv; [discriminate |].
  destruct (and_then (py_getitem data "humidity") (py_float py)) as [? | h];
    cbn [and_then] in Hv; [discriminate |].
  destruct (and_then (py_getitem data "timestamp_ms") (py_int py)) as [? | ts];
    cbn [and_then] in Hv; [discriminate |].
  destruct (scale py t) as [? | nt] eqn:Ht; cbn [and_then] in Hv; [discriminate |].
  destruct (scale py h) as [? | nh] eqn:Hh; cbn [and_then] in Hv; [discriminate |].
  injection Hv as <-. cbn. repeat split; assumption.
Qed.

(** A run on a valid reading: the archive step, then the ledger write
    with what the archive step returned. *)
Lemma recibir_lectura_valid_trace data st r :
  validate py data = ok r ->
  exists up st1 arch rest,
    subir_a_pinata node cfg (pinata_payload r) (logged (debug_line data) st) = (ok up, st1) /\
    trace st1 = trace st ++ debug_line data :: arch /\
    Forall (fun e => is_ledger e = false) arch /\
    (forall e, In e arch -> is_http e = true ->
       e = pinata_request cfg (pinata_payload r)) /\
    (PINATA_JWT cfg = "" -> up = PyNone /\ arch = [warn_line]) /\
    trace (snd (recibir_lectura node cfg py data st)) =
      trace st1 ++ GetTransactionCount (account_address cfg) :: rest /\
    Forall (fun e => is_http e = false) rest /\
    (forall args, In (StoreReading args) rest ->
       args = storeReading_args r (py_or up (PyStr ""))) /\
    (forall fn p, In (BuildTransaction fn p) rest ->
       fn = storeReading_fn r (py_or up (PyStr "")) /\ tx_gas p = 300000 /\
       tx_chainId p = CHAIN_ID cfg /\ tx_from p = account_address cfg).
Proof.
  intros Hv.
  destruct (subir_a_pinata_returns (pinata_payload r) (logged (debug_line data) st))
    as [up Hup].
  destruct (subir_a_pinata node cfg (pinata_payload r) (logged (debug_line data) st))
    as [res st1] eqn:Harch.
  cbn [fst] in Hup. subst res.
  destruct (subir_a_pinata_trace (pinata_payload r) (logged (debug_line data) st))
    as (arch & Harch_tr & Hnoledger & Honly & _).
  rewrite Harch in Harch_tr. cbn [snd logged trace] in Harch_tr.
  rewrite <- app_assoc in Harch_tr. cbn [app] in Harch_tr.
  destruct (submit_begins r (py_or up (PyStr "")) st1) as (rest & Hsub & Hnohttp & Hargs & Hbuild).
  exists up, st1, arch, rest.
  rewrite (recibir_lectura_valid data st r up st1 Hv Harch).
  split; [reflexivity |]. split; [exact Harch_tr |].
  split; [exact Hnoledger |]. split; [exact Honly |].
  split; [| auto].
  intros Hjwt.
  rewrite (subir_a_pinata_skip (pinata_payload r) (logged (debug_line data) st) Hjwt) in Harch.
  injection Harch as <- <-. cbn [logged trace] in Harch_tr.
  rewrite <- app_assoc in Harch_tr. apply app_inv_head in Harch_tr.
  injection Harch_tr as <-. auto.
Qed.

End Phases.

(** ** The claims *)

Section Claims.

Context {W : Type}.
Variable node : World W.
Variable cfg : Config.
Variable py : Builtins.

(** C1. For the reading [{device_id: "esp32-1", temperature: 25.3,
    humidity: 70.1, timestamp_ms: 1731000000000}], when the archive
    service answers with a CID and every call on the node succeeds, the
    handler returns [{status: "ok", tx_hash, block, cid}], and the
    contract's [storeReading] is called with 253 and 701. *)
Theorem end_to_end_sample_reading
    st r items c w1 n w2 w3 g w4 tx w5 raw w6 h w7 rc w8 :
  let payload :=
    PyDict [("device_id", PyStr "esp32-1");
            ("temperature_c", PyFloat 25.3);
            ("humidity_percent", PyFloat 70.1);
            ("timestamp_ms", PyInt 1731000000000)] in
  let args :=
    [PyStr "esp32-1"; PyInt 253; PyInt 701; PyInt 1731000000000; PyStr c] in
  let fn := {| fn_name := "storeReading"; fn_args := args |} in
  let params :=
    {| tx_from := account_address cfg; tx_nonce := n; tx_gas := 300000;
       tx_gasPrice := g; tx_chainId := CHAIN_ID cfg |} in
  PINATA_JWT cfg <> "" ->
  requests_post node PINATA_URL payload (pinata_headers cfg) 30 (world st) = (ok r, w1) ->
  raise_for_status r = ok tt ->
  body_json r = Some (PyDict items) ->
  lookup "IpfsHash" items = Some (PyStr c) ->
  get_transaction_count node (account_address cfg) w1 = (ok n, w2) ->
  storeReading node args w2 = (ok tt, w3) ->
  gas_price node w3 = (ok g, w4) ->
  build_transaction node fn params w4 = (ok tx, w5) ->
  sign_transaction node tx (PRIVATE_KEY cfg) w5 = (ok raw, w6) ->
  send_raw_transaction node raw w6 = (ok h, w7) ->
  wait_for_transaction_receipt node h w7 = (ok rc, w8) ->
  recibir_lectura node cfg py sample_reading st =
    (ok (PyDict [("status", PyStr "ok");
                 ("tx_hash", PyStr (hex h));
                 ("block", PyInt (blockNumber rc));
                 ("cid", PyStr c)]),
     {| world := w8;
        trace := trace st ++
          [debug_line sample_reading;
           RequestsPost PINATA_URL payload (pinata_headers cfg) 30;
           uploaded_line (PyStr c);
           GetTransactionCount (account_address cfg);
           StoreReading args;
           GasPrice;
           BuildTransaction fn params;
           SignTransaction tx (PRIVATE_KEY cfg);
           SendRawTransaction raw;
           Print [PVal (PyStr "[INFO] Tx enviada:"); PVal (PyStr (hex h))];
           WaitForTransactionReceipt h;
           Print [PVal (PyStr "[INFO] Tx minada en bloque:");
                  PVal (PyInt (blockNumber rc))]] |}).
Proof.
  intros payload args fn params Hjwt Hpost Hstatus Hbody Hcid Hn Hs Hg Hb Hsig Hsend Hwait.
  set (reading := {| device_id := PyStr "esp32-1"; temp_c := 25.3; hum := 70.1;
                     timestamp_ms := 1731000000000;
                     temp_times10 := 253; hum_times10 := 701 |}).
  assert (Hv : validate py sample_reading = ok reading) by (vm_compute; reflexivity).
  assert (Hup : subir_a_pinata node cfg (pinata_payload reading)
                  (logged (debug_line sample_reading) st) =
                (ok (PyStr c),
                 {| world := w1;
                    trace := (trace st ++ [debug_line sample_reading]) ++
                             [pinata_request cfg payload; uploaded_line (PyStr c)] |})).
  { rewrite (subir_a_pinata_upload node cfg _ _ Hjwt).
    change (pinata_payload reading) with payload.
    cbn [logged world trace]. rewrite Hpost.
    rewrite (ipfs_hash_ok r items (PyStr c) Hstatus Hbody Hcid). reflexivity. }
  rewrite (recibir_lectura_valid node cfg py _ _ _ _ _ Hv Hup).
  rewrite py_or_str.
  rewrite (submit_ok node cfg reading (PyStr c)
             {| world := w1;
                trace := (trace st ++ [debug_line sample_reading]) ++
                         [pinata_request cfg payload; uploaded_line (PyStr c)] |}
             n w2 w3 g w4 tx w5 raw w6 h w7 rc w8 Hn Hs Hg Hb Hsig Hsend Hwait).
  cbn [trace]. rewrite <- !app_assoc. reflexivity.
Qed.

(** C2. Both measurements are scaled by [int(round(x * 10))], whose
    rounding is to the nearest integer, ties to the even one:
    25.3 gives 253, -12.34 gives -123, 25.25 gives 252. It gives an
    integer whenever the tenfold is a finite number. The handler scales
    every reading so: once the payload has been read and the node has
    answered the nonce query, [storeReading] is called with the scaled
    temperature and humidity, and the arguments of every [storeReading]
    call are such scaled values. *)
Theorem scale_rounds_half_to_even :
  scale py 25.3 = ok 253 /\
  scale py (-12.34) = ok (-123) /\
  scale py 25.25 = ok 252 /\
  (forall x n, scale py x = ok n -> rounds_to (x * 10)%float n) /\
  (forall x, roundable x = true ->
     exists n, scale py x = ok n /\ rounds_to (x * 10)%float n) /\
  (forall data st new args,
     trace (snd (recibir_lectura node cfg py data st)) = trace st ++ new ->
     In (StoreReading args) new ->
     exists device t h ts cid nt nh,
       and_then (py_getitem data "temperature") (py_float py) = ok t /\
       and_then (py_getitem data "humidity") (py_float py) = ok h /\
       scale py t = ok nt /\
       scale py h = ok nh /\
       args = [device; PyInt nt; PyInt nh; PyInt ts; cid]) /\
  (forall data st device t h ts nt nh up st1 n w2,
     py_get data "device_id" (PyStr "unknown-device") = ok device ->
     and_then (py_getitem data "temperature") (py_float py) = ok t ->
     and_then (py_getitem data "humidity") (py_float py) = ok h ->
     and_then (py_getitem data "timestamp_ms") (py_int py) = ok ts ->
     scale py t = ok nt ->
     scale py h = ok nh ->
     subir_a_pinata node cfg
       (PyDict [("device_id", device);
                ("temperature_c", PyFloat t);
                ("humidity_percent", PyFloat h);
                ("timestamp_ms", PyInt ts)])
       (logged (debug_line data) st) = (ok up, st1) ->
     get_transaction_count node (account_address cfg) (world st1) = (ok n, w2) ->
     exists rest,
       trace (snd (recibir_lectura node cfg py data st)) =
         trace st1 ++
         [GetTransactionCount (account_address cfg);
          StoreReading [device; PyInt nt; PyInt nh; PyInt ts; py_or up (PyStr "")]] ++
         rest).
Proof.
  assert (Hrounds : forall x n, scale py x = ok n -> rounds_to (x * 10)%float n).
  { intros x n. unfold scale.
    destruct (py_round (x * 10)%float) as [e | m] eqn:Hr; cbn [and_then py_int]; [discriminate |].
    intros H; injection H as <-. apply py_round_rounds_to, Hr. }
  split; [vm_compute; reflexivity |].
  split; [vm_compute; reflexivity |].
  split; [vm_compute; reflexivity |].
  split; [exact Hrounds |].
  split.
  { intros x Hx.
    assert (Hn : exists n, scale py x = ok n).
    { revert Hx. unfold roundable, scale, py_round.
      destruct (Prim2SF (x * 10)%float); try discriminate; intros _;
        cbn [and_then py_int]; eexists; reflexivity. }
    destruct Hn as [n Hn]. exists n. split; [exact Hn | apply Hrounds, Hn]. }
  split.
  - intros data st new args Htrace Hin.
    destruct (validate py data) as [e | r] eqn:Hv.
    + rewrite (recibir_lectura_invalid node cfg py _ _ _ Hv) in Htrace.
      cbn [snd logged trace] in Htrace. apply app_inv_head in Htrace. subst new.
      destruct Hin as [Hin | []]. discriminate.
    + destruct (recibir_lectura_valid_trace node cfg py data st r Hv)
        as (up & st1 & arch & rest & _ & Harch & Hnoledger & _ & _ & Hrun & _ & Hargs & _).
      rewrite Hrun, Harch, <- app_assoc in Htrace.
      apply app_inv_head in Htrace. subst new.
      rewrite Forall_forall in Hnoledger.
      cbn [app] in Hin. destruct Hin as [Hin | Hin]; [discriminate |].
      apply in_app_or in Hin. destruct Hin as [Hin | [Hin | Hin]].
      * apply Hnoledger in Hin. discriminate.
      * discriminate.
      * apply Hargs in Hin. subst args.
        destruct (validate_fields py data r Hv) as (_ & Ht & Hh & _ & Hnt & Hnh).
        exists (device_id r), (temp_c r), (hum r), (timestamp_ms r),
               (py_or up (PyStr "")), (temp_times10 r), (hum_times10 r).
        repeat split; assumption.
  - intros data st device t h ts nt nh up st1 n w2 Hd Ht Hh Hts Hnt Hnh Hup Hn.
    set (r := {| device_id := device; temp_c := t; hum := h; timestamp_ms := ts;
                 temp_times10 := nt; hum_times10 := nh |}).
    assert (Hv : validate py data = ok r).
    { unfold validate. rewrite Hd. cbn [and_then]. rewrite Ht. cbn [and_then].
      rewrite Hh. cbn [and_then]. rewrite Hts. cbn [and_then].
      rewrite Hnt. cbn [and_then]. rewrite Hnh. reflexivity. }
    rewrite (recibir_lectura_valid node cfg py data st r up st1 Hv Hup).
    exact (submit_reaches_storeReading node cfg r (py_or up (PyStr "")) st1 n w2 Hn).
Qed.

(** X18. [subir_a_pinata] never raises. It returns [None] when the
    request fails in transport, when the status is an HTTP error, when the
    body is not JSON, when the JSON is not an object, and when the object
    has no [IpfsHash]; it returns the string under [IpfsHash] when the
    response carries one. *)
Theorem subir_a_pinata_never_raises payload st :
  (exists up, fst (subir_a_pinata node cfg payload st) = ok up) /\
  (forall e w1,
     requests_post node PINATA_URL payload (pinata_headers cfg) 30 (world st) = (err e, w1) ->
     fst (subir_a_pinata node cfg payload st) = ok PyNone) /\
  (forall r w1,
     requests_post node PINATA_URL payload (pinata_headers cfg) 30 (world st) = (ok r, w1) ->
     400 <= status_code r < 600 ->
     fst (subir_a_pinata node cfg payload st) = ok PyNone) /\
  (forall r w1,
     requests_post node PINATA_URL payload (pinata_headers cfg) 30 (world st) = (ok r, w1) ->
     body_json r = None ->
     fst (subir_a_pinata node cfg payload st) = ok PyNone) /\
  (forall r w1 v,
     requests_post node PINATA_URL payload (pinata_headers cfg) 30 (world st) = (ok r, w1) ->
     body_json r = Some v ->
     (forall items, v <> PyDict items) ->
     fst (subir_a_pinata node cfg payload st) = ok PyNone) /\
  (forall r w1 items,
     requests_post node PINATA_URL payload (pinata_headers cfg) 30 (world st) = (ok r, w1) ->
     body_json r = Some (PyDict items) ->
     lookup "IpfsHash" items = None ->
     fst (subir_a_pinata node cfg payload st) = ok PyNone) /\
  (forall r w1 items c,
     PINATA_JWT cfg <> "" ->
     requests_post node PINATA_URL payload (pinata_headers cfg) 30 (world st) = (ok r, w1) ->
     ~ 400 <= status_code r < 600 ->
     body_json r = Some (PyDict items) ->
     lookup "IpfsHash" items = Some (PyStr c) ->
     fst (subir_a_pinata node cfg payload st) = ok (PyStr c)).
Proof.
  split; [apply subir_a_pinata_returns |].
  assert (Hnone : forall r w1,
            requests_post node PINATA_URL payload (pinata_headers cfg) 30 (world st) = (ok r, w1) ->
            (forall v, ipfs_hash r = ok v -> v = PyNone) ->
            fst (subir_a_pinata node cfg payload st) = ok PyNone).
  { intros r w1 Hpost Hhash.
    destruct (String.eqb_spec (PINATA_JWT cfg) "") as [Hjwt | Hjwt].
    - rewrite (subir_a_pinata_skip node cfg payload st Hjwt). reflexivity.
    - rewrite (subir_a_pinata_upload node cfg payload st Hjwt), Hpost.
      destruct (ipfs_hash r) as [e | v] eqn:Hh; [reflexivity |].
      rewrite (Hhash v eq_refl). reflexivity. }
  repeat split.
  - intros e w1 Hpost.
    destruct (String.eqb_spec (PINATA_JWT cfg) "") as [Hjwt | Hjwt].
    + rewrite (subir_a_pinata_skip node cfg payload st Hjwt). reflexivity.
    + rewrite (subir_a_pinata_upload node cfg payload st Hjwt), Hpost. reflexivity.
  - intros r w1 Hpost Hstatus. apply (Hnone r w1 Hpost). intros v.
    unfold ipfs_hash, raise_for_status.
    replace (400 <=? status_code r) with true by (symmetry; apply Z.leb_le; lia).
    replace (status_code r <? 600) with true by (symmetry; apply Z.ltb_lt; lia).
    discriminate.
  - intros r w1 Hpost Hbody. apply (Hnone r w1 Hpost). intros v.
    unfold ipfs_hash, response_json. rewrite Hbody.
    destruct (raise_for_status r) as [? | []]; discriminate.
  - intros r w1 v Hpost Hbody Hnodict. apply (Hnone r w1 Hpost). intros v'.
    unfold ipfs_hash, response_json. rewrite Hbody.
    destruct (raise_for_status r) as [? | []]; cbn [and_then]; [discriminate |].
    destruct v; try discriminate. exfalso. eapply Hnodict. reflexivity.
  - intros r w1 items Hpost Hbody Hmissing. apply (Hnone r w1 Hpost). intros v.
    unfold ipfs_hash, response_json. rewrite Hbody.
    destruct (raise_for_status r) as [? | []]; cbn [and_then py_get]; [discriminate |].
    rewrite Hmissing. intros H; injection H as <-. reflexivity.
  - intros r w1 items c Hjwt Hpost Hstatus Hbody Hcid.
    rewrite (subir_a_pinata_upload node cfg payload st Hjwt), Hpost.
    rewrite (ipfs_hash_ok r items (PyStr c)); [reflexivity | | assumption | assumption].
    unfold raise_for_status.
    destruct (Z.leb_spec 400 (status_code r)); [| reflexivity].
    destruct (Z.ltb_spec (status_code r) 600); [| reflexivity].
    exfalso. apply Hstatus. lia.
Qed.

(** C3. The archive step has returned before the ledger write begins:
    the nonce query is the first call after it, and no request goes to the
    archive service afterwards. What the archive step returned, or [""]
    when it returned [None], is the [cid] argument of [storeReading]; when
    the calls on the node succeed, the transaction is built, signed and
    broadcast. *)
Theorem archive_outcome_before_ledger data st r up st1 :
  validate py data = ok r ->
  subir_a_pinata node cfg (pinata_payload r) (logged (debug_line data) st) = (ok up, st1) ->
  let cid := py_or up (PyStr "") in
  (up = PyNone -> cid = PyStr "") /\
  exists arch rest,
    trace st1 = trace st ++ debug_line data :: arch /\
    Forall (fun e => is_ledger e = false) arch /\
    trace (snd (recibir_lectura node cfg py data st)) =
      trace st1 ++ GetTransactionCount (account_address cfg) :: rest /\
    Forall (fun e => is_http e = false) rest /\
    (forall args, In (StoreReading args) rest -> args = storeReading_args r cid) /\
    (forall n w2 w3 g w4 tx w5 raw w6,
       get_transaction_count node (account_address cfg) (world st1) = (ok n, w2) ->
       storeReading node (storeReading_args r cid) w2 = (ok tt, w3) ->
       gas_price node w3 = (ok g, w4) ->
       build_transaction node (storeReading_fn r cid) (tx_params cfg n g) w4 = (ok tx, w5) ->
       sign_transaction node tx (PRIVATE_KEY cfg) w5 = (ok raw, w6) ->
       exists rest',
         rest =
           [StoreReading (storeReading_args r cid);
            GasPrice;
            BuildTransaction (storeReading_fn r cid) (tx_params cfg n g);
            SignTransaction tx (PRIVATE_KEY cfg);
            SendRawTransaction raw] ++ rest').
Proof.
  intros Hv Hup cid.
  split; [intros ->; reflexivity |].
  destruct (recibir_lectura_valid_trace node cfg py data st r Hv)
    as (up' & st1' & arch & rest & Hup' & Harch & Hnoledger & _ & _ & Htrace & Hnohttp & Hargs & _).
  rewrite Hup in Hup'. injection Hup' as <- <-.
  exists arch, rest. repeat split; try assumption.
  intros n w2 w3 g w4 tx w5 raw w6 Hn Hs Hg Hb Hsig.
  destruct (submit_reaches_broadcast node cfg r cid st1 n w2 w3 g w4 tx w5 raw w6
              Hn Hs Hg Hb Hsig) as [rest' Hrest].
  rewrite (recibir_lectura_valid node cfg py data st r up st1 Hv Hup) in Htrace.
  fold cid in Htrace. rewrite Hrest in Htrace.
  apply app_inv_head in Htrace. cbn [app] in Htrace.
  injection Htrace as <-. exists rest'. reflexivity.
Qed.

(** C5. When the environment has no [PINATA_JWT], [subir_a_pinata] sends
    no request and returns [None]; the handler sends no HTTP request at
    all and goes on to the ledger write with the empty CID. *)
Theorem missing_jwt_skips_upload environ payload data st :
  environ "PINATA_JWT" = None ->
  PINATA_JWT cfg = environ_get environ "PINATA_JWT" "" ->
  subir_a_pinata node cfg payload st = (ok PyNone, logged warn_line st) /\
  (exists new,
     trace (snd (recibir_lectura node cfg py data st)) = trace st ++ new /\
     Forall (fun e => is_http e = false) new) /\
  (forall r, validate py data = ok r ->
     exists rest,
       trace (snd (recibir_lectura node cfg py data st)) =
         trace st ++
         [debug_line data; warn_line; GetTransactionCount (account_address cfg)] ++ rest /\
       (forall args, In (StoreReading args) rest ->
          args = storeReading_args r (PyStr ""))).
Proof.
  intros Henv Hcfg.
  assert (Hjwt : PINATA_JWT cfg = "").
  { rewrite Hcfg. unfold environ_get. rewrite Henv. reflexivity. }
  split; [apply subir_a_pinata_skip, Hjwt |].
  assert (Hvalid : forall r, validate py data = ok r ->
            exists rest,
              trace (snd (recibir_lectura node cfg py data st)) =
                trace st ++
                [debug_line data; warn_line; GetTransactionCount (account_address cfg)] ++ rest /\
              Forall (fun e => is_http e = false) rest /\
              (forall args, In (StoreReading args) rest ->
                 args = storeReading_args r (PyStr ""))).
  { intros r Hv.
    destruct (recibir_lectura_valid_trace node cfg py data st r Hv)
      as (up & st1 & arch & rest & _ & Harch & _ & _ & Hskip & Htrace & Hnohttp & Hargs & _).
    destruct (Hskip Hjwt) as [-> ->].
    exists rest. rewrite Htrace, Harch, <- app_assoc. auto. }
  split.
  - destruct (validate py data) as [e | r] eqn:Hv.
    + rewrite (recibir_lectura_invalid node cfg py data st e Hv).
      exists [debug_line data]. split; [reflexivity | repeat constructor].
    + destruct (Hvalid r eq_refl) as (rest & Htrace & Hnohttp & _).
      eexists. split; [exact Htrace |].
      repeat constructor. exact Hnohttp.
  - intros r Hv. destruct (Hvalid r Hv) as (rest & Htrace & _ & Hargs).
    exists rest. auto.
Qed.

(** C6. The transaction of a request is built with the transaction count
    the node has just reported for the account as nonce, the gas price the
    node has just reported, 300000 as gas limit and the configured chain
    id. The request asks the node once and builds one transaction, and
    nothing of an earlier request enters: the state [st] the request starts
    in is arbitrary. *)
Theorem transaction_built_from_node_answers data st r up st1 n w2 w3 g w4 :
  validate py data = ok r ->
  subir_a_pinata node cfg (pinata_payload r) (logged (debug_line data) st) = (ok up, st1) ->
  let cid := py_or up (PyStr "") in
  get_transaction_count node (account_address cfg) (world st1) = (ok n, w2) ->
  storeReading node (storeReading_args r cid) w2 = (ok tt, w3) ->
  gas_price node w3 = (ok g, w4) ->
  exists rest,
    trace (snd (recibir_lectura node cfg py data st)) =
      trace st1 ++
      [GetTransactionCount (account_address cfg);
       StoreReading (storeReading_args r cid);
       GasPrice;
       BuildTransaction
         {| fn_name := "storeReading"; fn_args := storeReading_args r cid |}
         {| tx_from := account_address cfg;
            tx_nonce := n;
            tx_gas := 300000;
            tx_gasPrice := g;
            tx_chainId := CHAIN_ID cfg |}] ++ rest /\
    Forall (fun e => is_nonce_query e = false /\ is_build e = false) rest.
Proof.
  intros Hv Hup cid Hn Hs Hg.
  rewrite (recibir_lectura_valid node cfg py data st r up st1 Hv Hup).
  exact (submit_reaches_build node cfg r cid st1 n w2 w3 g w4 Hn Hs Hg).
Qed.

(** C7, as the code has it. When one of [temperature], [humidity] and
    [timestamp_ms] is missing from the payload, or has a value that
    [float()] or [int()] rejects, the handler raises before it calls any
    collaborator: the debug line is all it has done. The exception is that
    of the first such field: a [KeyError] naming the field when it is
    missing, and otherwise a [TypeError], [ValueError] or [OverflowError],
    which names no field. *)
Theorem invalid_field_raises_before_any_call items st f0 e0 :
  field_check py (PyDict items) f0 = err e0 ->
  exists f e,
    recibir_lectura node cfg py (PyDict items) st =
      (err e, logged (debug_line (PyDict items)) st) /\
    field_check py (PyDict items) f = err e /\
    (forall g, (field_index g < field_index f)%nat ->
               field_check py (PyDict items) g = ok tt) /\
    ((lookup (field_key f) items = None /\ e = KeyError (field_key f)) \/
     (exists v, lookup (field_key f) items = Some v /\
                field_conv py f v = err e /\
                (e = TypeError \/ e = ValueError \/ e = OverflowError))).
Proof.
  intros Hf0.
  destruct (validate_first_failing_field py items f0 e0 Hf0) as (f & e & Hf & Hfirst & Hv).
  exists f, e. split; [apply recibir_lectura_invalid, Hv |].
  split; [exact Hf |]. split; [exact Hfirst |].
  apply field_check_error, Hf.
Qed.

(** C10. When the payload has no [device_id], the handler uses
    ["unknown-device"]: it is the [device_id] of the JSON sent to the
    archive service and the first argument of [storeReading]. *)
Theorem default_device_id items st r :
  lookup "device_id" items = None ->
  validate py (PyDict items) = ok r ->
  let archived :=
    PyDict [("device_id", PyStr "unknown-device");
            ("temperature_c", PyFloat (temp_c r));
            ("humidity_percent", PyFloat (hum r));
            ("timestamp_ms", PyInt (timestamp_ms r))] in
  exists up st1 new,
    subir_a_pinata node cfg archived (logged (debug_line (PyDict items)) st) = (ok up, st1) /\
    trace (snd (recibir_lectura node cfg py (PyDict items) st)) = trace st ++ new /\
    (forall url json headers timeout,
       In (RequestsPost url json headers timeout) new -> json = archived) /\
    (forall args,
       In (StoreReading args) new ->
       args = [PyStr "unknown-device"; PyInt (temp_times10 r); PyInt (hum_times10 r);
               PyInt (timestamp_ms r); py_or up (PyStr "")]) /\
    (PINATA_JWT cfg <> "" ->
     In (RequestsPost PINATA_URL archived (pinata_headers cfg) 30) new) /\
    (forall n w2,
       get_transaction_count node (account_address cfg) (world st1) = (ok n, w2) ->
       In (StoreReading
             [PyStr "unknown-device"; PyInt (temp_times10 r); PyInt (hum_times10 r);
              PyInt (timestamp_ms r); py_or up (PyStr "")]) new).
Proof.
  intros Hmissing Hv archived.
  assert (Hdev : device_id r = PyStr "unknown-device").
  { destruct (validate_fields py _ _ Hv) as (Hd & _).
    cbn [py_get] in Hd. rewrite Hmissing in Hd. injection Hd as <-. reflexivity. }
  assert (Hpayload : pinata_payload r = archived).
  { unfold pinata_payload, archived. rewrite Hdev. reflexivity. }
  assert (Hargs_eq : forall cid, storeReading_args r cid =
            [PyStr "unknown-device"; PyInt (temp_times10 r); PyInt (hum_times10 r);
             PyInt (timestamp_ms r); cid]).
  { intros cid. unfold storeReading_args. rewrite Hdev. reflexivity. }
  destruct (recibir_lectura_valid_trace node cfg py (PyDict items) st r Hv)
    as (up & st1 & arch & rest & Hup & Harch & Hnoledger & Honly & _ & Htrace & Hnohttp & Hargs & _).
  rewrite Hpayload in Hup, Honly.
  exists up, st1, (debug_line (PyDict items) :: arch ++
                   GetTransactionCount (account_address cfg) :: rest).
  split; [exact Hup |].
  split.
  { rewrite Htrace, Harch, <- app_assoc. reflexivity. }
  rewrite Forall_forall in Hnoledger, Hnohttp.
  split.
  { intros url json headers timeout [Hin | Hin]; [discriminate |].
    apply in_app_or in Hin. destruct Hin as [Hin | [Hin | Hin]].
    - apply Honly in Hin; [| reflexivity]. unfold pinata_request in Hin.
      injection Hin as _ -> _ _. reflexivity.
    - discriminate.
    - apply Hnohttp in Hin. discriminate. }
  split.
  { intros args [Hin | Hin]; [discriminate |].
    apply in_app_or in Hin. destruct Hin as [Hin | [Hin | Hin]].
    - apply Hnoledger in Hin. discriminate.
    - discriminate.
    - rewrite <- Hargs_eq. apply Hargs, Hin. }
  split.
  { intros Hjwt.
    destruct (subir_a_pinata_requests node cfg archived
                (logged (debug_line (PyDict items)) st) Hjwt) as [more Hmore].
    rewrite Hup in Hmore. cbn [snd logged trace] in Hmore.
    rewrite Harch in Hmore. rewrite <- app_assoc in Hmore.
    apply app_inv_head in Hmore. cbn [app] in Hmore. injection Hmore as ->.
    right. apply in_or_app. left. left. reflexivity. }
  intros n w2 Hn.
  destruct (submit_reaches_storeReading node cfg r (py_or up (PyStr "")) st1 n w2 Hn)
    as [more Hmore].
  rewrite <- Hpayload in Hup.
  rewrite (recibir_lectura_valid node cfg py _ st r up st1 Hv Hup) in Htrace.
  rewrite Hmore in Htrace. apply app_inv_head in Htrace. cbn [app] in Htrace.
  injection Htrace as <-.
  right. apply in_or_app. right. right. left. rewrite Hargs_eq. reflexivity.
Qed.

End Claims.

(** ** The claims on the test worlds *)

Lemma end_to_end_sample_reading_run :
  fst (recibir_lectura happy_world sample_config no_str_parsing sample_reading (start 7%nat)) =
  ok (PyDict [("status", PyStr "ok");
              ("tx_hash", PyStr (hex sample_hash));
              ("block", PyInt 4242);
              ("cid", PyStr sample_cid)]).
Proof.
  rewrite (end_to_end_sample_reading happy_world sample_config no_str_parsing
             (start 7%nat)
             {| status_code := 200;
                body_json := Some (PyDict [("IpfsHash", PyStr sample_cid)]) |}
             [("IpfsHash", PyStr sample_cid)] sample_cid
             7%nat 7 7%nat 7%nat 1500000000 7%nat
             (PyDict [("nonce", PyInt 7); ("gas", PyInt 300000)]) 7%nat
             [Byte.x02; Byte.xf8] 7%nat sample_hash 8%nat
             {| transactionHash := sample_hash; blockNumber := 4242; status := 1 |} 8%nat).
  - reflexivity.
  - discriminate.
  - reflexivity.
  - reflexivity.
  - reflexivity.
  - reflexivity.
  - reflexivity.
  - reflexivity.
  - reflexivity.
  - reflexivity.
  - reflexivity.
  - reflexivity.
  - reflexivity.
Defined.

Lemma sample_reading_is_scaled :
  exists rest,
    trace (snd (recibir_lectura happy_world sample_config no_str_parsing
                  sample_reading (start 7%nat))) =
    [debug_line sample_reading;
     pinata_request sample_config (pinata_payload sample_fields);
     uploaded_line (PyStr sample_cid)] ++
    [GetTransactionCount (account_address sample_config);
     StoreReading [PyStr "esp32-1"; PyInt 253; PyInt 701; PyInt 1731000000000;
                   PyStr sample_cid]] ++ rest.
Proof.
  exact (proj2 (proj2 (proj2 (proj2 (proj2 (proj2
           (scale_rounds_half_to_even happy_world sample_config no_str_parsing))))))
           sample_reading (start 7%nat)
           (PyStr "esp32-1") 25.3%float 70.1%float 1731000000000 253 701
           (PyStr sample_cid)
           {| world := 7%nat;
              trace := [debug_line sample_reading;
                        pinata_request sample_config (pinata_payload sample_fields);
                        uploaded_line (PyStr sample_cid)] |}
           7 7%nat
           eq_refl eq_refl eq_refl eq_refl eq_refl eq_refl eq_refl eq_refl).
Defined.

Lemma archive_down_still_broadcast :
  exists rest,
    trace (snd (recibir_lectura archive_down_world sample_config no_str_parsing
                  sample_reading (start 7%nat))) =
    [debug_line sample_reading;
     pinata_request sample_config (pinata_payload sample_fields);
     upload_error_line (LibraryError "ConnectionError");
     GetTransactionCount (account_address sample_config);
     StoreReading [PyStr "esp32-1"; PyInt 253; PyInt 701; PyInt 1731000000000; PyStr ""];
     GasPrice;
     BuildTransaction (storeReading_fn sample_fields (PyStr "")) (tx_params sample_config 7 1500000000);
     SignTransaction (PyDict [("nonce", PyInt 7); ("gas", PyInt 300000)]) "0xkey";
     SendRawTransaction [Byte.x02; Byte.xf8]] ++ rest.
Proof.
  destruct (archive_outcome_before_ledger archive_down_world sample_config no_str_parsing
              sample_reading (start 7%nat) sample_fields PyNone
              {| world := 7%nat;
                 trace := [debug_line sample_reading;
                           pinata_request sample_config (pinata_payload sample_fields);
                           upload_error_line (LibraryError "ConnectionError")] |}
              eq_refl eq_refl)
    as [_ (arch & rest & _ & _ & Htrace & _ & _ & Hbroadcast)].
  destruct (Hbroadcast 7 7%nat 7%nat 1500000000 7%nat
              (PyDict [("nonce", PyInt 7); ("gas", PyInt 300000)]) 7%nat
              [Byte.x02; Byte.xf8] 7%nat eq_refl eq_refl eq_refl eq_refl eq_refl)
    as [rest' Hrest].
  exists rest'. rewrite Htrace, Hrest. reflexivity.
Defined.

Lemma subir_a_pinata_sample_cid :
  fst (subir_a_pinata happy_world sample_config (pinata_payload sample_fields) (start 7%nat)) =
  ok (PyStr sample_cid).
Proof.
  refine (proj2 (proj2 (proj2 (proj2 (proj2 (proj2
            (subir_a_pinata_never_raises happy_world sample_config
               (pinata_payload sample_fields) (start 7%nat)))))))
            {| status_code := 200;
               body_json := Some (PyDict [("IpfsHash", PyStr sample_cid)]) |}
            7%nat [("IpfsHash", PyStr sample_cid)] sample_cid _ _ _ _ _).
  - discriminate.
  - reflexivity.
  - cbn. lia.
  - reflexivity.
  - reflexivity.
Defined.

(** C4, where the code departs from it. The archive service answers
    with status 200 and the JSON object [{"IpfsHash": 42}]. The claim, the
    [Optional[str]] annotation and the docstring promise [None] or the CID
    string; [subir_a_pinata] returns the number 42, which is neither, and
    the handler hands it to [storeReading] as [cid]. *)
Theorem subir_a_pinata_numeric_ipfs_hash :
  requests_post numeric_cid_world PINATA_URL (pinata_payload sample_fields)
    (pinata_headers sample_config) 30 7%nat =
    (ok {| status_code := 200;
           body_json := Some (PyDict [("IpfsHash", PyInt 42)]) |}, 7%nat) /\
  fst (subir_a_pinata numeric_cid_world sample_config (pinata_payload sample_fields)
         (logged (debug_line sample_reading) (start 7%nat))) = ok (PyInt 42) /\
  PyInt 42 <> PyNone /\
  (forall c, PyInt 42 <> PyStr c) /\
  In (StoreReading [PyStr "esp32-1"; PyInt 253; PyInt 701; PyInt 1731000000000; PyInt 42])
     (trace (snd (recibir_lectura numeric_cid_world sample_config no_str_parsing
                    sample_reading (start 7%nat)))).
Proof.
  split; [reflexivity |]. split; [reflexivity |].
  split; [discriminate |]. split; [discriminate |].
  vm_compute. tauto.
Qed.

Lemma no_jwt_sample_skips_upload :
  subir_a_pinata happy_world no_jwt_config (pinata_payload sample_fields) (start 7%nat) =
  (ok PyNone, logged warn_line (start 7%nat)).
Proof.
  apply (proj1 (missing_jwt_skips_upload happy_world no_jwt_config no_str_parsing
                  empty_environ (pinata_payload sample_fields) sample_reading (start 7%nat)
                  eq_refl eq_refl)).
Defined.

Lemma sample_transaction_parameters :
  exists rest,
    trace (snd (recibir_lectura happy_world sample_config no_str_parsing
                  sample_reading (start 7%nat))) =
    [debug_line sample_reading;
     pinata_request sample_config (pinata_payload sample_fields);
     uploaded_line (PyStr sample_cid)] ++
    [GetTransactionCount (account_address sample_config);
     StoreReading (storeReading_args sample_fields (PyStr sample_cid));
     GasPrice;
     BuildTransaction
       {| fn_name := "storeReading";
          fn_args := storeReading_args sample_fields (PyStr sample_cid) |}
       {| tx_from := account_address sample_config;
          tx_nonce := 7;
          tx_gas := 300000;
          tx_gasPrice := 1500000000;
          tx_chainId := 11155111 |}] ++ rest.
Proof.
  destruct (transaction_built_from_node_answers happy_world sample_config no_str_parsing
              sample_reading (start 7%nat) sample_fields (PyStr sample_cid)
              {| world := 7%nat;
                 trace := [debug_line sample_reading;
                           pinata_request sample_config (pinata_payload sample_fields);
                           uploaded_line (PyStr sample_cid)] |}
              7 7%nat 7%nat 1500000000 7%nat
              eq_refl eq_refl eq_refl eq_refl eq_refl)
    as (rest & Htrace & _).
  exists rest. exact Htrace.
Defined.

Lemma null_temperature_raises_before_any_call :
  exists f e,
    recibir_lectura happy_world sample_config no_str_parsing null_temperature (start 7%nat) =
      (err e, logged (debug_line null_temperature) (start 7%nat)) /\
    field_check no_str_parsing null_temperature f = err e.
Proof.
  destruct (invalid_field_raises_before_any_call happy_world sample_config no_str_parsing
              [("temperature", PyNone);
               ("humidity", PyFloat 70.1);
               ("timestamp_ms", PyInt 1731000000000)]
              (start 7%nat) Temperature TypeError eq_refl)
    as (f & e & Hrun & Hfield & _).
  exists f, e. split; assumption.
Defined.

(** C7, as the spec has it, fails on a reading whose temperature is
    [null]: the field is there and [float()] rejects it, and the handler
    raises a [TypeError], which is the [KeyError] of no field. *)
Lemma null_temperature_names_no_field :
  field_check no_str_parsing null_temperature Temperature = err TypeError /\
  fst (recibir_lectura happy_world sample_config no_str_parsing
         null_temperature (start 7%nat)) = err TypeError /\
  ~ (exists key,
       fst (recibir_lectura happy_world sample_config no_str_parsing
              null_temperature (start 7%nat)) = err (KeyError key)).
Proof.
  split; [reflexivity |]. split; [reflexivity |].
  intros [key Hkey]. vm_compute in Hkey. discriminate.
Qed.

Lemma anonymous_reading_device_id :
  exists up st1 new,
    subir_a_pinata happy_world sample_config (pinata_payload anonymous_fields)
      (logged (debug_line anonymous_reading) (start 7%nat)) = (ok up, st1) /\
    trace (snd (recibir_lectura happy_world sample_config no_str_parsing
                  anonymous_reading (start 7%nat))) = new /\
    In (RequestsPost PINATA_URL (pinata_payload anonymous_fields)
          (pinata_headers sample_config) 30) new /\
    In (StoreReading
          [PyStr "unknown-device"; PyInt 253; PyInt 701; PyInt 1731000000000;
           py_or up (PyStr "")]) new.
Proof.
  destruct (default_device_id happy_world sample_config no_str_parsing
              [("temperature", PyFloat 25.3);
               ("humidity", PyFloat 70.1);
               ("timestamp_ms", PyInt 1731000000000)]
              (start 7%nat) anonymous_fields eq_refl eq_refl)
    as (up & st1 & new & Hup & Htrace & _ & _ & Hpost & Hstore).
  exists up, st1, new. split; [exact Hup |]. split; [exact Htrace |].
  split; [apply Hpost; discriminate |].
  apply (Hstore 7 7%nat).
  change (subir_a_pinata happy_world sample_config (pinata_payload anonymous_fields)
            (logged (debug_line anonymous_reading) (start 7%nat)))
    with (ok (PyStr sample_cid),
          {| world := 7%nat;
             trace := [debug_line anonymous_reading;
                       pinata_request sample_config (pinata_payload anonymous_fields);
                       uploaded_line (PyStr sample_cid)] |}) in Hup.
  injection Hup as _ <-. reflexivity.
Defined.

(** Two requests in a row: each asks the node, and the second gets the
    count the first has advanced. *)
Example two_requests_two_nonces :
  nonces (trace (snd (bind (recibir_lectura happy_world sample_config no_str_parsing sample_reading)
                           (fun _ => recibir_lectura happy_world sample_config no_str_parsing
                                       anonymous_reading)
                           (start 7%nat)))) = [7; 8].
Proof. vm_compute. reflexivity. Qed.

Lemma hex_length b : String.length (hex b) = (2 * List.length b)%nat.
Proof. induction b as [| x rest IH]; cbn [hex String.length List.length]; [reflexivity | lia]. Qed.

(** * More on the code *)

(** ** The ledger write, case by case *)

(** One case for each answer a collaborator can give, in call order. *)
Ltac split_answer :=
  match goal with
  | |- context [let (_, _) := ?x in _] =>
      lazymatch x with
      | (let (_, _) := _ in _) => fail
      | _ =>
          let E := fresh "Hanswer" in
          destruct x as [[?e | ?a] ?w] eqn:E; cbn [world trace]
      end
  end.

Ltac all_runs :=
  unfold bind, call, print, ret, lift; cbn [world trace];
  repeat split_answer;
  cbn [fst snd world trace];
  repeat rewrite <- app_assoc; cbn [app].

Section LedgerWrite.

Context {W : Type}.
Variable node : World W.
Variable cfg : Config.

Ltac sorted_ranks :=
  cbn [call_ranks flat_map call_rank app];
  repeat first
    [ apply SSorted_nil | apply SSorted_cons | apply Forall_nil
    | apply Forall_cons | lia ].

(** The calls of the ledger write come in the order of the source, each
    once at most, and none of them is a request to the archive. *)
Lemma submit_call_order r cid st :
  exists rest,
    trace (snd (submit node cfg r cid st)) = trace st ++ rest /\
    StronglySorted lt (call_ranks rest) /\
    Forall (fun n => (1 <= n)%nat) (call_ranks rest).
Proof.
  unfold submit. all_runs.
  all: eexists; split; [reflexivity |].
  all: split; sorted_ranks.
Qed.

(** The calls of a ledger write are the first steps of the source, as
    many as were answered and the one that was not: none is skipped. *)
Lemma submit_call_prefix r cid st :
  exists rest k,
    trace (snd (submit node cfg r cid st)) = trace st ++ rest /\
    call_ranks rest = seq 1 k /\ (1 <= k <= 7)%nat.
Proof.
  unfold submit. all_runs.
  all: match goal with
       | |- exists rest k, _ ++ ?l = _ /\ _ =>
           exists l, (List.length (call_ranks l))
       end.
  all: split; [reflexivity |]; cbn; split; [reflexivity | lia].
Qed.

(** A ledger write that returns has had every call answered. *)
Lemma submit_returns_inv r cid st resp st' :
  submit node cfg r cid st = (ok resp, st') ->
  exists n w2 w3 g w4 tx w5 raw w6 h w7 rc,
    get_transaction_count node (account_address cfg) (world st) = (ok n, w2) /\
    storeReading node (storeReading_args r cid) w2 = (ok tt, w3) /\
    gas_price node w3 = (ok g, w4) /\
    build_transaction node (storeReading_fn r cid) (tx_params cfg n g) w4 = (ok tx, w5) /\
    sign_transaction node tx (PRIVATE_KEY cfg) w5 = (ok raw, w6) /\
    send_raw_transaction node raw w6 = (ok h, w7) /\
    wait_for_transaction_receipt node h w7 = (ok rc, world st') /\
    resp = response_ok h rc cid.
Proof.
  unfold submit. all_runs. all: intros Hrun; try discriminate.
  injection Hrun as <- <-. cbn [world].
  repeat match goal with
         | u : unit |- _ => destruct u
         end.
  do 12 eexists. repeat split; first [eassumption | reflexivity].
Qed.


End LedgerWrite.

(** ** The archive step and the handler *)

Section Handler.

Context {W : Type}.
Variable node : World W.
Variable cfg : Config.
Variable py : Builtins.

Lemma raise_for_status_ok r :
  ~ 400 <= status_code r < 600 -> raise_for_status r = ok tt.
Proof.
  intros Hstatus. unfold raise_for_status.
  destruct (Z.leb_spec 400 (status_code r)); [| reflexivity].
  destruct (Z.ltb_spec (status_code r) 600); [| reflexivity].
  exfalso. apply Hstatus. lia.
Qed.

Lemma py_or_empty up :
  py_or up (PyStr "") <> PyNone /\
  (truthy (py_or up (PyStr "")) = false -> py_or up (PyStr "") = PyStr "").
Proof.
  unfold py_or. destruct (truthy up) eqn:Hup.
  - split; [intros ->; discriminate | congruence].
  - split; [discriminate | reflexivity].
Qed.

(** The archive step asks the archive service once at most. *)
Lemma subir_a_pinata_call_ranks payload st :
  exists arch,
    trace (snd (subir_a_pinata node cfg payload st)) = trace st ++ arch /\
    (call_ranks arch = [] \/ call_ranks arch = [0%nat]).
Proof.
  destruct (String.eqb_spec (PINATA_JWT cfg) "") as [Hjwt | Hjwt].
  - rewrite (subir_a_pinata_skip node cfg payload st Hjwt).
    exists [warn_line]. split; [reflexivity | left; reflexivity].
  - rewrite (subir_a_pinata_upload node cfg payload st Hjwt).
    destruct (requests_post node PINATA_URL payload (pinata_headers cfg) 30 (world st))
      as [[e | r] w1]; [| destruct (ipfs_hash r)].
    all: eexists; split; [reflexivity | right; reflexivity].
Qed.

(** What a run on a valid reading sends out. *)
Lemma recibir_lectura_events data st r :
  validate py data = ok r ->
  exists up new,
    trace (snd (recibir_lectura node cfg py data st)) = trace st ++ new /\
    (forall e, In e new -> is_http e = true ->
       e = pinata_request cfg (pinata_payload r)) /\
    (forall args, In (StoreReading args) new ->
       args = storeReading_args r (py_or up (PyStr ""))).
Proof.
  intros Hv.
  destruct (recibir_lectura_valid_trace node cfg py data st r Hv)
    as (up & st1 & arch & rest & _ & Harch & Hnoledger & Honly & _ & Hrun & Hnohttp & Hargs & _).
  rewrite Forall_forall in Hnoledger, Hnohttp.
  exists up, (debug_line data :: arch ++ GetTransactionCount (account_address cfg) :: rest).
  split; [rewrite Hrun, Harch, <- app_assoc; reflexivity |].
  split.
  - intros e [<- | Hin] Hhttp; [discriminate |].
    apply in_app_or in Hin. destruct Hin as [Hin | [<- | Hin]].
    + apply Honly; assumption.
    + discriminate.
    + apply Hnohttp in Hin. congruence.
  - intros args [Hin | Hin]; [discriminate |].
    apply in_app_or in Hin. destruct Hin as [Hin | [Hin | Hin]].
    + apply Hnoledger in Hin. discriminate.
    + discriminate.
    + apply Hargs, Hin.
Qed.

(** X1. With a token configured, [subir_a_pinata] sends one request,
    whatever comes back: a POST to [PINATA_URL] of the payload as it was
    given, with the bearer token and the JSON content type, and a timeout
    of 30 seconds. It prints one line after it, never asks again, and
    leaves the world as that one request left it. *)
Theorem subir_a_pinata_single_request payload st :
  PINATA_JWT cfg <> "" ->
  exists line,
    trace (snd (subir_a_pinata node cfg payload st)) =
      trace st ++
      [RequestsPost PINATA_URL payload
         [("Authorization", String.append "Bearer " (PINATA_JWT cfg));
          ("Content-Type", "application/json")] 30;
       Print line] /\
    world (snd (subir_a_pinata node cfg payload st)) =
      snd (requests_post node PINATA_URL payload (pinata_headers cfg) 30 (world st)).
Proof.
  intros Hjwt. rewrite (subir_a_pinata_upload node cfg payload st Hjwt).
  destruct (requests_post node PINATA_URL payload (pinata_headers cfg) 30 (world st))
    as [[e | r] w1]; [| destruct (ipfs_hash r)].
  all: eexists; split; reflexivity.
Qed.

(** X2. When the archive service answers without an error status and
    with a JSON object, [subir_a_pinata] returns what the object has under
    [IpfsHash] as it is, a string or not, and [None] when the key is
    absent. *)
Theorem subir_a_pinata_returns_field_as_is payload st r w1 items :
  PINATA_JWT cfg <> "" ->
  requests_post node PINATA_URL payload (pinata_headers cfg) 30 (world st) = (ok r, w1) ->
  ~ 400 <= status_code r < 600 ->
  body_json r = Some (PyDict items) ->
  fst (subir_a_pinata node cfg payload st) =
    ok (match lookup "IpfsHash" items with
        | Some v => v
        | None => PyNone
        end).
Proof.
  intros Hjwt Hpost Hstatus Hbody.
  rewrite (subir_a_pinata_upload node cfg payload st Hjwt), Hpost.
  unfold ipfs_hash, response_json.
  rewrite (raise_for_status_ok r Hstatus), Hbody. cbn [and_then py_get].
  destruct (lookup "IpfsHash" items); reflexivity.
Qed.

(** X3. The [cid] of a request is never [None]: the last argument of
    every [storeReading] call and the [cid] of every response is a value
    that counts as true, or the empty string. *)
Theorem cid_is_never_none data st :
  exists new,
    trace (snd (recibir_lectura node cfg py data st)) = trace st ++ new /\
    (forall args, In (StoreReading args) new ->
       exists device t h ts cid,
         args = [device; t; h; ts; cid] /\ cid <> PyNone /\
         (truthy cid = false -> cid = PyStr "")) /\
    (forall resp, fst (recibir_lectura node cfg py data st) = ok (PyDict resp) ->
       exists cid,
         lookup "cid" resp = Some cid /\ cid <> PyNone /\
         (truthy cid = false -> cid = PyStr "")).
Proof.
  destruct (validate py data) as [e | r] eqn:Hv.
  - rewrite (recibir_lectura_invalid node cfg py data st e Hv).
    exists [debug_line data]. split; [reflexivity |]. split.
    + intros args [Hin | []]. discriminate.
    + intros resp Hresp. discriminate.
  - destruct (recibir_lectura_events data st r Hv) as (up & new & Htrace & _ & Hargs).
    exists new. split; [exact Htrace |]. split.
    + intros args Hin. rewrite (Hargs args Hin).
      exists (device_id r), (PyInt (temp_times10 r)), (PyInt (hum_times10 r)),
             (PyInt (timestamp_ms r)), (py_or up (PyStr "")).
      split; [reflexivity | apply py_or_empty].
    + intros resp Hresp.
      destruct (subir_a_pinata_returns node cfg (pinata_payload r)
                  (logged (debug_line data) st)) as [up' Hup].
      destruct (subir_a_pinata node cfg (pinata_payload r) (logged (debug_line data) st))
        as [res st1] eqn:Harch.
      cbn [fst] in Hup. subst res.
      rewrite (recibir_lectura_valid node cfg py data st r up' st1 Hv Harch) in Hresp.
      destruct (submit node cfg r (py_or up' (PyStr "")) st1) as [res st'] eqn:Hsub.
      cbn [fst] in Hresp. subst res.
      destruct (submit_returns_inv node cfg r _ st1 _ st' Hsub)
        as (n & w2 & w3 & g & w4 & tx & w5 & raw & w6 & h & w7 & rc & _ & _ & _ & _ & _ & _ & _ & Hresp).
      injection Hresp as ->.
      exists (py_or up' (PyStr "")). split; [reflexivity | apply py_or_empty].
Qed.

Lemma subir_a_pinata_call_rank_by_token payload st :
  exists arch,
    trace (snd (subir_a_pinata node cfg payload st)) = trace st ++ arch /\
    (PINATA_JWT cfg = "" -> call_ranks arch = []) /\
    (PINATA_JWT cfg <> "" -> call_ranks arch = [0%nat]).
Proof.
  destruct (String.eqb_spec (PINATA_JWT cfg) "") as [Hjwt | Hjwt].
  - rewrite (subir_a_pinata_skip node cfg payload st Hjwt).
    exists [warn_line]. split; [reflexivity |]. split; [reflexivity | contradiction].
  - rewrite (subir_a_pinata_upload node cfg payload st Hjwt).
    destruct (requests_post node PINATA_URL payload (pinata_headers cfg) 30 (world st))
      as [[e | r] w1]; [| destruct (ipfs_hash r)].
    all: eexists; split; [reflexivity |]; split; [contradiction | reflexivity].
Qed.

(** X4. In every run the calls on the collaborators come in the order
    of the source: the archive request (step 0), the nonce query (1),
    [storeReading] (2), the gas price (3), [build_transaction] (4),
    [sign_transaction] (5), the broadcast (6), the wait for the receipt
    (7). Each is made once at most and none is skipped: the calls of a run
    are consecutive steps, none at all when the payload does not read,
    and otherwise the steps up to the one where the run stopped, from the
    archive request when a token is configured and from the nonce query
    when none is. *)
Theorem calls_in_source_order data st :
  exists new,
    trace (snd (recibir_lectura node cfg py data st)) = trace st ++ new /\
    StronglySorted lt (call_ranks new) /\
    exists k,
      (k <= 7)%nat /\
      (call_ranks new = seq 1 k \/ call_ranks new = seq 0 (S k)) /\
      ((forall r, validate py data <> ok r) -> k = 0%nat /\ call_ranks new = []) /\
      (forall r, validate py data = ok r ->
         (1 <= k)%nat /\
         (PINATA_JWT cfg = "" -> call_ranks new = seq 1 k) /\
         (PINATA_JWT cfg <> "" -> call_ranks new = seq 0 (S k))).
Proof.
  destruct (validate py data) as [e | r] eqn:Hv.
  - rewrite (recibir_lectura_invalid node cfg py data st e Hv).
    exists [debug_line data]. split; [reflexivity |].
    split; [apply SSorted_nil |].
    exists 0%nat. split; [lia |]. split; [left; reflexivity |].
    split; [intros _; split; reflexivity |].
    intros r Hr. discriminate.
  - destruct (subir_a_pinata_returns node cfg (pinata_payload r)
                (logged (debug_line data) st)) as [up Hup].
    destruct (subir_a_pinata_call_rank_by_token (pinata_payload r)
                (logged (debug_line data) st))
      as (arch & Harch & Hnone & Hone).
    destruct (subir_a_pinata node cfg (pinata_payload r) (logged (debug_line data) st))
      as [res st1] eqn:Hsubir.
    cbn [fst] in Hup. subst res. cbn [snd logged trace] in Harch.
    rewrite (recibir_lectura_valid node cfg py data st r up st1 Hv Hsubir).
    destruct (submit_call_order node cfg r (py_or up (PyStr "")) st1)
      as (rest & Hrest & Hsorted & Hledger).
    destruct (submit_call_prefix node cfg r (py_or up (PyStr "")) st1)
      as (rest' & k & Hrest' & Hseq & Hk).
    assert (rest' = rest) as ->.
    { rewrite Hrest in Hrest'. apply app_inv_head in Hrest'. congruence. }
    assert (Hranks : call_ranks (debug_line data :: arch ++ rest) =
                     call_ranks arch ++ seq 1 k).
    { change (call_ranks (debug_line data :: arch ++ rest))
        with (call_ranks (arch ++ rest)).
      unfold call_ranks in *. rewrite flat_map_app, Hseq. reflexivity. }
    exists (debug_line data :: arch ++ rest).
    split; [rewrite Hrest, Harch, <- !app_assoc; reflexivity |].
    rewrite Hranks.
    destruct (String.eqb_spec (PINATA_JWT cfg) "") as [Hjwt | Hjwt].
    + rewrite (Hnone Hjwt). cbn [app].
      split; [rewrite <- Hseq; exact Hsorted |].
      exists k. split; [lia |]. split; [left; reflexivity |].
      split; [intros Hnot; exfalso; apply (Hnot r); reflexivity |].
      intros r' _. split; [lia |]. split; [reflexivity | contradiction].
    + rewrite (Hone Hjwt). cbn [app].
      split.
      { apply SSorted_cons; [rewrite <- Hseq; exact Hsorted |].
        rewrite <- Hseq.
        apply Forall_impl with (P := fun n => (1 <= n)%nat); [| exact Hledger].
        intros n Hn. lia. }
      exists k. split; [lia |]. split; [right; reflexivity |].
      split; [intros Hnot; exfalso; apply (Hnot r); reflexivity |].
      intros r' _. split; [lia |]. split; [contradiction | reflexivity].
Qed.

(** X5. The handler returns a response only when every call on the node
    has been answered: the payload was read, the nonce query,
    [storeReading], the gas price, [build_transaction], [sign_transaction],
    the broadcast and the wait for the receipt all returned. The
    response's [tx_hash] is the hash the broadcast returned, in hex, its
    [block] is the block number of the receipt for that hash, and its
    [cid] is what the archive step returned, or [""]. *)
Theorem ok_response_means_confirmed data st resp :
  fst (recibir_lectura node cfg py data st) = ok resp ->
  exists r up st1 n w2 w3 g w4 tx w5 raw w6 h w7 rc,
    validate py data = ok r /\
    subir_a_pinata node cfg (pinata_payload r) (logged (debug_line data) st) = (ok up, st1) /\
    get_transaction_count node (account_address cfg) (world st1) = (ok n, w2) /\
    storeReading node (storeReading_args r (py_or up (PyStr ""))) w2 = (ok tt, w3) /\
    gas_price node w3 = (ok g, w4) /\
    build_transaction node (storeReading_fn r (py_or up (PyStr "")))
      (tx_params cfg n g) w4 = (ok tx, w5) /\
    sign_transaction node tx (PRIVATE_KEY cfg) w5 = (ok raw, w6) /\
    send_raw_transaction node raw w6 = (ok h, w7) /\
    wait_for_transaction_receipt node h w7 =
      (ok rc, world (snd (recibir_lectura node cfg py data st))) /\
    resp = PyDict [("status", PyStr "ok");
                   ("tx_hash", PyStr (hex h));
                   ("block", PyInt (blockNumber rc));
                   ("cid", py_or up (PyStr ""))].
Proof.
  intros Hresp.
  destruct (validate py data) as [e | r] eqn:Hv.
  { rewrite (recibir_lectura_invalid node cfg py data st e Hv) in Hresp. discriminate. }
  destruct (subir_a_pinata_returns node cfg (pinata_payload r)
              (logged (debug_line data) st)) as [up Hup].
  destruct (subir_a_pinata node cfg (pinata_payload r) (logged (debug_line data) st))
    as [res st1] eqn:Harch.
  cbn [fst] in Hup. subst res.
  rewrite (recibir_lectura_valid node cfg py data st r up st1 Hv Harch) in Hresp |- *.
  destruct (submit node cfg r (py_or up (PyStr "")) st1) as [res st'] eqn:Hsub.
  cbn [fst] in Hresp. subst res. cbn [snd].
  destruct (submit_returns_inv node cfg r _ st1 _ st' Hsub)
    as (n & w2 & w3 & g & w4 & tx & w5 & raw & w6 & h & w7 & rc &
        Hn & Hs & Hg & Hb & Hsig & Hsend & Hwait & Hok).
  exists r, up, st1, n, w2, w3, g, w4, tx, w5, raw, w6, h, w7, rc.
  repeat split; assumption.
Qed.


(** X7. A body that is not a JSON object, be it a list, a string, a
    number, a boolean or [null], makes the handler raise [AttributeError]
    at its first statement after the debug line; no collaborator is
    called. *)
Theorem non_object_payload_raises data st :
  (forall items, data <> PyDict items) ->
  recibir_lectura node cfg py data st =
    (err AttributeError, logged (debug_line data) st).
Proof.
  intros Hnot. apply recibir_lectura_invalid.
  destruct data; try reflexivity.
  exfalso. eapply Hnot. reflexivity.
Qed.

Lemma scale_unroundable x :
  roundable x = false ->
  exists e, scale py x = err e /\ (e = ValueError \/ e = OverflowError).
Proof.
  unfold roundable, scale, py_round.
  destruct (Prim2SF (x * 10)%float); try discriminate; intros _.
  - exists OverflowError. auto.
  - exists ValueError. auto.
Qed.

Lemma scale_roundable x :
  roundable x = true -> exists n, scale py x = ok n.
Proof.
  unfold roundable, scale, py_round.
  destruct (Prim2SF (x * 10)%float); try discriminate; intros _;
    cbn [and_then py_int]; eexists; reflexivity.
Qed.

(** X8. A temperature or humidity whose tenfold is not a finite number
    (a NaN, an infinity, or a finite value so large that the product
    overflows) makes the handler raise [ValueError] or [OverflowError]
    before any collaborator is called, even though every field is there
    and converts. *)
Theorem unroundable_measurement_raises items st t h ts :
  and_then (py_getitem (PyDict items) "temperature") (py_float py) = ok t ->
  and_then (py_getitem (PyDict items) "humidity") (py_float py) = ok h ->
  and_then (py_getitem (PyDict items) "timestamp_ms") (py_int py) = ok ts ->
  roundable t && roundable h = false ->
  exists e,
    recibir_lectura node cfg py (PyDict items) st =
      (err e, logged (debug_line (PyDict items)) st) /\
    (e = ValueError \/ e = OverflowError).
Proof.
  intros Ht Hh Hts Hround.
  assert (Hv : exists e, validate py (PyDict items) = err e /\
                         (e = ValueError \/ e = OverflowError)).
  { unfold validate. cbn [py_get].
    assert (Hd : forall d : pyval, exists e,
              and_then (ok d) (fun d0 =>
                and_then (and_then (py_getitem (PyDict items) "temperature") (py_float py))
                  (fun t0 =>
                and_then (and_then (py_getitem (PyDict items) "humidity") (py_float py))
                  (fun h0 =>
                and_then (and_then (py_getitem (PyDict items) "timestamp_ms") (py_int py))
                  (fun ts0 =>
                and_then (scale py t0) (fun t10 =>
                and_then (scale py h0) (fun h10 =>
                ok {| device_id := d0; temp_c := t0; hum := h0; timestamp_ms := ts0;
                      temp_times10 := t10; hum_times10 := h10 |})))))) = err e /\
              (e = ValueError \/ e = OverflowError)).
    { intros d. rewrite Ht, Hh, Hts. cbn [and_then].
      destruct (roundable t) eqn:Hrt.
      - cbn [andb] in Hround.
        destruct (scale_unroundable h Hround) as (e & He & Hclass).
        destruct (scale_roundable t Hrt) as [n Hn].
        rewrite Hn, He. cbn [and_then]. exists e. auto.
      - destruct (scale_unroundable t Hrt) as (e & He & Hclass).
        rewrite He. exists e. auto. }
    destruct (lookup "device_id" items); apply Hd. }
  destruct Hv as (e & Hv & Hclass).
  exists e. split; [apply recibir_lectura_invalid, Hv | exact Hclass].
Qed.

(** X9. A [device_id] that is in the payload is used as it is, whatever
    its value, [null] included: the default replaces a key that is absent,
    not a value that is empty. It is the [device_id] of every JSON sent to
    the archive service and the first argument of every [storeReading]
    call. *)
Theorem explicit_device_id_kept items st r v :
  lookup "device_id" items = Some v ->
  validate py (PyDict items) = ok r ->
  exists new,
    trace (snd (recibir_lectura node cfg py (PyDict items) st)) = trace st ++ new /\
    (forall url json headers timeout,
       In (RequestsPost url json headers timeout) new ->
       json = PyDict [("device_id", v);
                      ("temperature_c", PyFloat (temp_c r));
                      ("humidity_percent", PyFloat (hum r));
                      ("timestamp_ms", PyInt (timestamp_ms r))]) /\
    (forall args,
       In (StoreReading args) new ->
       exists cid,
         args = [v; PyInt (temp_times10 r); PyInt (hum_times10 r);
                 PyInt (timestamp_ms r); cid]).
Proof.
  intros Hdev Hv.
  assert (Hid : device_id r = v).
  { destruct (validate_fields py _ _ Hv) as (Hd & _).
    cbn [py_get] in Hd. rewrite Hdev in Hd. injection Hd as <-. reflexivity. }
  destruct (recibir_lectura_events (PyDict items) st r Hv) as (up & new & Htrace & Honly & Hargs).
  exists new. split; [exact Htrace |]. split.
  - intros url json headers timeout Hin.
    apply Honly in Hin; [| reflexivity].
    unfold pinata_request, pinata_payload in Hin. rewrite Hid in Hin.
    injection Hin as _ -> _ _. reflexivity.
  - intros args Hin. rewrite (Hargs args Hin).
    exists (py_or up (PyStr "")). unfold storeReading_args. rewrite Hid. reflexivity.
Qed.

(** X10. What is archived and what is stored on chain belong together:
    whenever a run both sends a JSON to the archive service and calls
    [storeReading], the two carry the same [device_id] and the same
    [timestamp_ms], and the scaled temperature and humidity of the call
    are [int(round(x * 10))] of the [temperature_c] and
    [humidity_percent] of the JSON. *)
Theorem archive_and_ledger_agree data st :
  exists new,
    trace (snd (recibir_lectura node cfg py data st)) = trace st ++ new /\
    (forall url json headers timeout args,
       In (RequestsPost url json headers timeout) new ->
       In (StoreReading args) new ->
       exists device t h ts cid nt nh,
         json = PyDict [("device_id", device);
                        ("temperature_c", PyFloat t);
                        ("humidity_percent", PyFloat h);
                        ("timestamp_ms", PyInt ts)] /\
         args = [device; PyInt nt; PyInt nh; PyInt ts; cid] /\
         scale py t = ok nt /\
         scale py h = ok nh).
Proof.
  destruct (validate py data) as [e | r] eqn:Hv.
  - rewrite (recibir_lectura_invalid node cfg py data st e Hv).
    exists [debug_line data]. split; [reflexivity |].
    intros url json headers timeout args [Hin | []]. discriminate.
  - destruct (recibir_lectura_events data st r Hv) as (up & new & Htrace & Honly & Hargs).
    exists new. split; [exact Htrace |].
    intros url json headers timeout args Hpost Hstore.
    apply Honly in Hpost; [| reflexivity].
    unfold pinata_request in Hpost. injection Hpost as _ -> _ _.
    rewrite (Hargs args Hstore).
    destruct (validate_fields py data r Hv) as (_ & _ & _ & _ & Hnt & Hnh).
    exists (device_id r), (temp_c r), (hum r), (timestamp_ms r),
           (py_or up (PyStr "")), (temp_times10 r), (hum_times10 r).
    repeat split; assumption.
Qed.

Lemma int_of_float_truncates_to x n :
  int_of_float x = ok n -> truncates_to x n.
Proof.
  unfold int_of_float, truncates_to, SF_den.
  destruct (Prim2SF x) as [s | s | | s m e]; try discriminate.
  - intros H; injection H as <-. reflexivity.
  - cbv zeta.
    set (a := if 0 <=? e then Z.pos m * 2 ^ e else Z.pos m / 2 ^ (- e)).
    assert (Ha : a * 2 ^ Z.max (- e) 0 <= Z.pos m * 2 ^ Z.max e 0 <
                 (a + 1) * 2 ^ Z.max (- e) 0 /\ 0 <= a).
    { unfold a. destruct (Z.leb_spec 0 e) as [Hge | Hlt].
      - rewrite (Z.max_l e 0), (Z.max_r (- e) 0) by lia. change (2 ^ 0) with 1.
        assert (Hpow : 0 < 2 ^ e) by (apply Z.pow_pos_nonneg; lia).
        nia.
      - rewrite (Z.max_r e 0), (Z.max_l (- e) 0) by lia. change (2 ^ 0) with 1.
        set (d := 2 ^ (- e)).
        assert (Hd : 0 < d) by (apply Z.pow_pos_nonneg; lia).
        pose proof (Z.div_mod (Z.pos m) d ltac:(lia)) as Hdm.
        pose proof (Z.mod_pos_bound (Z.pos m) d Hd) as Hr.
        assert (Hq : 0 <= Z.pos m / d) by (apply Z.div_pos; lia).
        nia. }
    clearbody a. intros H. destruct Ha as [Hbounds Hpos].
    destruct s; injection H as <-.
    + rewrite Z.abs_opp, Z.abs_eq by lia. split; [exact Hbounds | lia].
    + rewrite Z.abs_eq by lia. split; [exact Hbounds | lia].
Qed.

(** X11. A [timestamp_ms] given as a number with a fraction is cut
    towards zero, not rounded: the timestamp archived and stored is the
    whole part of the exact value of the float. *)
Theorem float_timestamp_truncated items r x :
  lookup "timestamp_ms" items = Some (PyFloat x) ->
  validate py (PyDict items) = ok r ->
  truncates_to x (timestamp_ms r).
Proof.
  intros Hts Hv.
  destruct (validate_fields py _ _ Hv) as (_ & _ & _ & Hint & _).
  cbn [py_getitem] in Hint. rewrite Hts in Hint. cbn [and_then py_int] in Hint.
  apply int_of_float_truncates_to, Hint.
Qed.

End Handler.

(** ** Start-up *)

Section Startup.

Context {V W : Type}.
Variable boot : Boot V.
Variable node : World W.
Variable py : Builtins.
Variable environ : string -> option string.

Ltac boot_cases :=
  unfold startup;
  repeat match goal with
         | |- context [to_checksum_address boot ?v ?w] =>
             destruct (to_checksum_address boot v w) as [[?e | ?c] ?w1] eqn:?
         | |- context [py_int py ?v] => destruct (py_int py v) as [?e | ?n] eqn:?
         | |- context [environ "RPC_URL"] => destruct (environ "RPC_URL") as [?url |] eqn:?
         | |- context [environ "PRIVATE_KEY"] =>
             destruct (environ "PRIVATE_KEY") as [?key |] eqn:?
         | |- context [String.eqb ?a ""] => destruct (String.eqb_spec a "")
         | |- context [is_connected boot ?u ?w] =>
             destruct (is_connected boot u w) as [[|] ?w2] eqn:?
         | |- context [from_key boot ?k ?w] =>
             destruct (from_key boot k w) as [[?e | ?address] ?w3] eqn:?
         | |- context [eth_contract boot ?a ?w] =>
             destruct (eth_contract boot a w) as [[?e | []] ?w4] eqn:?
         | _ => progress cbn [unset orb fst snd]
         end.

(** X13. Without [RPC_URL] or without [PRIVATE_KEY], unset or empty, the
    module does not load: start-up ends in an error before it has asked
    the node anything or touched a key. *)
Theorem startup_refuses_missing_settings w0 :
  unset (environ "RPC_URL") || unset (environ "PRIVATE_KEY") = true ->
  exists error,
    fst (startup boot py environ w0) = inl error /\
    Forall (fun e => touches_node e = false /\ uses_key e = false)
           (snd (snd (startup boot py environ w0))).
Proof.
  boot_cases; intros Hunset; try discriminate.
  all: eexists; split; [reflexivity | repeat constructor].
Qed.

(** X14. With a node that does not answer, the module does not load,
    and start-up never hands the private key to the library. *)
Theorem startup_refuses_unreachable_node w0 :
  (forall url w, fst (is_connected boot url w) = false) ->
  exists error,
    fst (startup boot py environ w0) = inl error /\
    Forall (fun e => uses_key e = false) (snd (snd (startup boot py environ w0))).
Proof.
  intros Hoffline. boot_cases.
  all: try (eexists; split; [reflexivity | repeat constructor]).
  all: match goal with
       | H : is_connected boot ?u ?w = (true, _) |- _ =>
           pose proof (Hoffline u w) as Hoff; rewrite H in Hoff; discriminate
       end.
Qed.

(** X15. A process that has started has what the handler needs: a
    non-empty [RPC_URL] on which the node answered, the non-empty
    [PRIVATE_KEY] of the environment as signing key, a non-empty contract
    address, the chain id read from [CHAIN_ID] (from ["11155111"]
    without it), the token of [PINATA_JWT] (the empty string without
    it), and the address of the key's account as sender. *)
Theorem started_process_is_configured w0 cfg :
  fst (startup boot py environ w0) = inr cfg ->
  exists url w1 w2 w3,
    environ "RPC_URL" = Some url /\ url <> "" /\
    is_connected boot url w1 = (true, w2) /\
    environ "PRIVATE_KEY" = Some (PRIVATE_KEY cfg) /\ PRIVATE_KEY cfg <> "" /\
    from_key boot (PRIVATE_KEY cfg) w2 = (ok (account_address cfg), w3) /\
    to_checksum_address boot (environ "CONTRACT_ADDRESS") w0 = (ok (CONTRACT_ADDRESS cfg), w1) /\
    CONTRACT_ADDRESS cfg <> "" /\
    py_int py (PyStr (environ_get environ "CHAIN_ID" "11155111")) = ok (CHAIN_ID cfg) /\
    PINATA_JWT cfg = environ_get environ "PINATA_JWT" "".
Proof.
  boot_cases; intros Hstart; try discriminate.
  injection Hstart as <-.
  cbn [CONTRACT_ADDRESS PRIVATE_KEY CHAIN_ID PINATA_JWT account_address].
  do 4 eexists. repeat split; first [eassumption | reflexivity].
Qed.

(** X16. A process started without [PINATA_JWT] in its environment
    never sends an HTTP request: no run of the handler, whatever the
    payload, has a request to the archive service in it. *)
Theorem started_without_jwt_never_uploads w0 cfg data st :
  environ "PINATA_JWT" = None ->
  fst (startup boot py environ w0) = inr cfg ->
  exists new,
    trace (snd (recibir_lectura node cfg py data st)) = trace st ++ new /\
    Forall (fun e => is_http e = false) new.
Proof.
  intros Henv Hstart.
  assert (Hjwt : PINATA_JWT cfg = "").
  { revert Hstart. boot_cases; intros Hstart; try discriminate.
    injection Hstart as <-. cbn [PINATA_JWT]. unfold environ_get. rewrite Henv. reflexivity. }
  destruct (validate py data) as [e | r] eqn:Hv.
  - rewrite (recibir_lectura_invalid node cfg py data st e Hv).
    exists [debug_line data]. split; [reflexivity | repeat constructor].
  - destruct (recibir_lectura_valid_trace node cfg py data st r Hv)
      as (up & st1 & arch & rest & _ & Harch & _ & _ & Hskip & Hrun & Hnohttp & _).
    destruct (Hskip Hjwt) as [_ ->].
    exists ([debug_line data; warn_line] ++
            GetTransactionCount (account_address cfg) :: rest).
    split; [rewrite Hrun, Harch, <- app_assoc; reflexivity |].
    repeat constructor. exact Hnohttp.
Qed.

(** X17. A process started without [CHAIN_ID] in its environment works
    on chain 11155111, Sepolia, when the interpreter reads that number in
    ["11155111"]: it is the chain id of every transaction the handler
    builds. *)
Theorem default_chain_id_is_sepolia w0 cfg data st :
  environ "CHAIN_ID" = None ->
  int_of_str py "11155111" = Some 11155111 ->
  fst (startup boot py environ w0) = inr cfg ->
  CHAIN_ID cfg = 11155111 /\
  exists new,
    trace (snd (recibir_lectura node cfg py data st)) = trace st ++ new /\
    (forall fn p, In (BuildTransaction fn p) new -> tx_chainId p = 11155111).
Proof.
  intros Henv Hint Hstart.
  assert (Hchain : CHAIN_ID cfg = 11155111).
  { revert Hstart. boot_cases; intros Hstart; try discriminate.
    injection Hstart as <-. cbn [CHAIN_ID].
    match goal with
    | H : py_int py _ = ok _ |- _ =>
        unfold environ_get in H; rewrite Henv in H; cbn [py_int] in H;
        rewrite Hint in H; injection H as <-
    end.
    reflexivity. }
  split; [exact Hchain |].
  destruct (validate py data) as [e | r] eqn:Hv.
  - rewrite (recibir_lectura_invalid node cfg py data st e Hv).
    exists [debug_line data]. split; [reflexivity |].
    intros fn p [Hin | []]. discriminate.
  - destruct (recibir_lectura_valid_trace node cfg py data st r Hv)
      as (up & st1 & arch & rest & _ & Harch & Hnoledger & _ & _ & Hrun & _ & _ & Hbuild).
    rewrite Forall_forall in Hnoledger.
    exists (debug_line data :: arch ++ GetTransactionCount (account_address cfg) :: rest).
    split; [rewrite Hrun, Harch, <- app_assoc; reflexivity |].
    intros fn p [Hin | Hin]; [discriminate |].
    apply in_app_or in Hin. destruct Hin as [Hin | [Hin | Hin]].
    + apply Hnoledger in Hin. discriminate.
    + discriminate.
    + rewrite <- Hchain. apply (Hbuild fn p Hin).
Qed.

End Startup.

(** ** The same on the test worlds *)

Lemma sample_upload_is_one_request :
  exists line,
    trace (snd (subir_a_pinata happy_world sample_config (pinata_payload sample_fields)
                  (start 7%nat))) =
    [RequestsPost PINATA_URL (pinata_payload sample_fields)
       [("Authorization", "Bearer jwt"); ("Content-Type", "application/json")] 30;
     Print line].
Proof.
  destruct (subir_a_pinata_single_request happy_world sample_config
              (pinata_payload sample_fields) (start 7%nat)) as (line & Htrace & _).
  - discriminate.
  - exists line. exact Htrace.
Defined.

Lemma numeric_cid_is_returned :
  fst (subir_a_pinata numeric_cid_world sample_config (pinata_payload sample_fields)
         (start 7%nat)) = ok (PyInt 42).
Proof.
  refine (subir_a_pinata_returns_field_as_is numeric_cid_world sample_config
            (pinata_payload sample_fields) (start 7%nat)
            {| status_code := 200; body_json := Some (PyDict [("IpfsHash", PyInt 42)]) |}
            7%nat [("IpfsHash", PyInt 42)] _ _ _ _).
  - discriminate.
  - reflexivity.
  - cbn. lia.
  - reflexivity.
Defined.

Lemma sample_response_is_confirmed :
  exists raw w6 h w7 rc,
    send_raw_transaction happy_world raw w6 = (ok h, w7) /\
    wait_for_transaction_receipt happy_world h w7 = (ok rc, 8%nat) /\
    PyStr (hex sample_hash) = PyStr (hex h) /\
    PyInt 4242 = PyInt (blockNumber rc).
Proof.
  destruct (ok_response_means_confirmed happy_world sample_config no_str_parsing
              sample_reading (start 7%nat)
              (PyDict [("status", PyStr "ok");
                       ("tx_hash", PyStr (hex sample_hash));
                       ("block", PyInt 4242);
                       ("cid", PyStr sample_cid)])
              eq_refl)
    as (r & up & st1 & n & w2 & w3 & g & w4 & tx & w5 & raw & w6 & h & w7 & rc &
        _ & _ & _ & _ & _ & _ & _ & Hsend & Hwait & Hresp).
  exists raw, w6, h, w7, rc.
  split; [exact Hsend |]. split; [exact Hwait |]. split; congruence.
Defined.


Lemma list_payload_raises :
  recibir_lectura happy_world sample_config no_str_parsing list_payload (start 7%nat) =
  (err AttributeError, logged (debug_line list_payload) (start 7%nat)).
Proof.
  apply (non_object_payload_raises happy_world sample_config no_str_parsing
           list_payload (start 7%nat)).
  intros items. discriminate.
Defined.

Lemma huge_temperature_raises :
  exists e,
    recibir_lectura happy_world sample_config no_str_parsing huge_temperature_reading
      (start 7%nat) =
      (err e, logged (debug_line huge_temperature_reading) (start 7%nat)) /\
    (e = ValueError \/ e = OverflowError).
Proof.
  apply (unroundable_measurement_raises happy_world sample_config no_str_parsing
           [("temperature", PyFloat 1e308);
            ("humidity", PyFloat 70.1);
            ("timestamp_ms", PyInt 1731000000000)]
           (start 7%nat) 1e308%float 70.1%float 1731000000000).
  - reflexivity.
  - reflexivity.
  - reflexivity.
  - vm_compute. reflexivity.
Defined.

Lemma null_device_id_is_kept :
  exists new,
    trace (snd (recibir_lectura happy_world sample_config no_str_parsing
                  null_device_reading (start 7%nat))) = new /\
    (forall args, In (StoreReading args) new ->
       exists cid, args = [PyNone; PyInt 253; PyInt 701; PyInt 1731000000000; cid]).
Proof.
  destruct (explicit_device_id_kept happy_world sample_config no_str_parsing
              [("device_id", PyNone);
               ("temperature", PyFloat 25.3);
               ("humidity", PyFloat 70.1);
               ("timestamp_ms", PyInt 1731000000000)]
              (start 7%nat) null_device_fields PyNone eq_refl eq_refl)
    as (new & Htrace & _ & Hargs).
  exists new. split; [exact Htrace | exact Hargs].
Defined.

Lemma fractional_timestamp_is_cut :
  truncates_to 1731000000000.75 1731000000000.
Proof.
  apply (float_timestamp_truncated no_str_parsing
           [("temperature", PyFloat 25.3);
            ("humidity", PyFloat 70.1);
            ("timestamp_ms", PyFloat 1731000000000.75)]
           fractional_timestamp_fields 1731000000000.75%float).
  - reflexivity.
  - vm_compute. reflexivity.
Defined.

Lemma keyless_process_does_not_start :
  exists error,
    fst (startup happy_boot sepolia_only keyless_environ 0%nat) = inl error /\
    Forall (fun e => touches_node e = false /\ uses_key e = false)
           (snd (snd (startup happy_boot sepolia_only keyless_environ 0%nat))).
Proof.
  apply (startup_refuses_missing_settings happy_boot sepolia_only keyless_environ 0%nat).
  reflexivity.
Defined.

Lemma offline_process_does_not_start :
  exists error,
    fst (startup offline_boot sepolia_only minimal_environ 0%nat) = inl error /\
    Forall (fun e => uses_key e = false)
           (snd (snd (startup offline_boot sepolia_only minimal_environ 0%nat))).
Proof.
  apply (startup_refuses_unreachable_node offline_boot sepolia_only minimal_environ 0%nat).
  intros url w. reflexivity.
Defined.

Lemma minimal_process_is_configured :
  exists url,
    minimal_environ "RPC_URL" = Some url /\ url <> "" /\
    CHAIN_ID started_config = 11155111 /\ PINATA_JWT started_config = "".
Proof.
  destruct (started_process_is_configured happy_boot sepolia_only minimal_environ
              0%nat started_config eq_refl)
    as (url & w1 & w2 & w3 & Hurl & Hne & _).
  exists url. repeat split; assumption.
Defined.

Lemma minimal_process_never_uploads :
  exists new,
    trace (snd (recibir_lectura happy_world started_config sepolia_only
                  sample_reading (start 7%nat))) = new /\
    Forall (fun e => is_http e = false) new.
Proof.
  exact (started_without_jwt_never_uploads happy_boot happy_world sepolia_only
           minimal_environ 0%nat started_config sample_reading (start 7%nat)
           eq_refl eq_refl).
Defined.

Lemma minimal_process_is_on_sepolia :
  CHAIN_ID started_config = 11155111 /\
  exists new,
    trace (snd (recibir_lectura happy_world started_config sepolia_only
                  sample_reading (start 7%nat))) = new /\
    (forall fn p, In (BuildTransaction fn p) new -> tx_chainId p = 11155111).
Proof.
  exact (default_chain_id_is_sepolia happy_boot happy_world sepolia_only
           minimal_environ 0%nat started_config sample_reading (start 7%nat)
           eq_refl eq_refl eq_refl).
Defined.

(** The start-up of a process with the three settings, in full. *)
Example minimal_startup :
  startup happy_boot sepolia_only minimal_environ 0%nat =
  (inr started_config,
   (0%nat,
    [ToChecksumAddress (Some (CONTRACT_ADDRESS sample_config));
     IsConnected "https://rpc.sepolia.example";
     FromKey (PRIVATE_KEY sample_config);
     BootPrint [PVal (PyStr "[INFO] Relayer usando cuenta:");
                PVal (PyStr (account_address sample_config))];
     EthContract (CONTRACT_ADDRESS sample_config)])).
Proof. reflexivity. Qed.
